(** * Verification of [scripts/generate-stats.js]

    A shallow embedding of the organization-metrics generator of the
    Abstract-Data profile repository, and the properties its design
    document states about it.

    The script is JavaScript.  Its data are the values that [JSON.parse]
    produces from the GitHub REST API, so the embedding starts with those
    values and with the handful of language operations the script applies to
    them (property access, truthiness, [||], [??], [+], conversion to
    string).  The script's own functions follow, in the order of the source
    file: [HEADERS], [fetchJson], [listOrgRepos], [fetchOrgMetrics], [main]
    and the process boundary [main().catch(...)].

    Conventions of the model:
    - a JavaScript number is an integer of [Z]; the counts of the API are
      integers and the script only adds them (sums are exact below 2^53);
    - an object is the list of its own properties in insertion order, which is
      also the order [JSON.stringify] writes them in;
    - an exception is a value of [js_error]; code that can throw returns a
      [completion];
    - the remote API, the file system's faults and the clock are parameters
      (a mock API is a function from requests to responses). *)

From stdpp Require Import gmap strings list pretty.

Open Scope Z_scope.

(** ** JavaScript values *)

#[local] Set Warnings "-register-all".

Inductive value : Type :=
  | VUndefined
  | VNull
  | VBool (b : bool)
  | VNum (n : Z)
  | VNaN
  | VStr (s : string)
  | VArr (elems : list value)
  | VObj (props : list (string * value)).

Record js_error : Type := JsError { err_name : string; message : string }.

Inductive completion (A : Type) : Type :=
  | Normal (a : A)
  | Throw (e : js_error).
Arguments Normal {A} a.
Arguments Throw {A} e.

#[global] Instance completion_ret : MRet completion := @Normal.

#[global] Instance completion_bind : MBind completion :=
  fun A B (k : A -> completion B) (c : completion A) =>
    match c with
    | Normal a => k a
    | Throw e => Throw e
    end.

Definition TypeError (msg : string) : js_error := JsError "TypeError" msg.
Definition Error (msg : string) : js_error := JsError "Error" msg.

(** The double quote and the control characters [JSON.stringify] escapes. *)
Definition dquote : string := String (Ascii.ascii_of_nat 34) EmptyString.
Definition newline : string := String (Ascii.ascii_of_nat 10) EmptyString.

(** [Array.prototype.join] on already converted elements. *)
Fixpoint join (sep : string) (parts : list string) : string :=
  match parts with
  | [] => EmptyString
  | [p] => p
  | p :: rest => p +:+ sep +:+ join sep rest
  end.

(** Own-property lookup.  [JSON.parse] keeps one property per key. *)
Fixpoint lookup_prop (k : string) (props : list (string * value)) : option value :=
  match props with
  | [] => None
  | (k', v) :: rest => if String.eqb k k' then Some v else lookup_prop k rest
  end.

Definition has_own (k : string) (props : list (string * value)) : bool :=
  match lookup_prop k props with Some _ => true | None => false end.

(** [v.k] for a property name [k] that no built-in prototype defines (every
    name the script reads from API data is such a name): reading from [null]
    or [undefined] throws, a primitive or an array has no such property. *)
Definition get (v : value) (k : string) : completion value :=
  match v with
  | VUndefined =>
      Throw (TypeError ("Cannot read properties of undefined (reading '" +:+ k +:+ "')"))
  | VNull =>
      Throw (TypeError ("Cannot read properties of null (reading '" +:+ k +:+ "')"))
  | VObj props =>
      Normal (match lookup_prop k props with Some x => x | None => VUndefined end)
  | _ => Normal VUndefined
  end.

(** ToBoolean. *)
Definition truthy (v : value) : bool :=
  match v with
  | VUndefined | VNull | VNaN => false
  | VBool b => b
  | VNum n => negb (n =? 0)
  | VStr s => negb (String.eqb s EmptyString)
  | VArr _ | VObj _ => true
  end.

(** [a || b] and [a ?? b] (the right operand has no effects in the script). *)
Definition js_or (a b : value) : value := if truthy a then a else b.

Definition nullish (v : value) : bool :=
  match v with VUndefined | VNull => true | _ => false end.

Definition js_coalesce (a b : value) : value := if nullish a then b else a.

(** ToString.  A parsed object is a plain object: it converts through
    [Object.prototype.toString] unless an own (hence not callable) property
    named [toString] shadows it, in which case the conversion throws.  An
    array converts through [join]. *)
Fixpoint to_string (v : value) : completion string :=
  match v with
  | VUndefined => Normal "undefined"
  | VNull => Normal "null"
  | VBool true => Normal "true"
  | VBool false => Normal "false"
  | VNum n => Normal (pretty n)
  | VNaN => Normal "NaN"
  | VStr s => Normal s
  | VArr elems =>
      parts ← (fix each (l : list value) : completion (list string) :=
                  match l with
                  | [] => Normal []
                  | x :: rest =>
                      s ← (if nullish x then Normal EmptyString else to_string x);
                      ss ← each rest;
                      Normal (s :: ss)
                  end) elems;
      Normal (join "," parts)
  | VObj props =>
      if has_own "toString" props
      then Throw (TypeError "Cannot convert object to primitive value")
      else Normal "[object Object]"
  end.

(** ToPrimitive: primitives are themselves, objects and arrays become their
    string. *)
Definition to_primitive (v : value) : completion value :=
  match v with
  | VArr _ | VObj _ => s ← to_string v; Normal (VStr s)
  | _ => Normal v
  end.

(** ToNumber on a primitive that is not a string ([None] is NaN). *)
Definition to_number (v : value) : option Z :=
  match v with
  | VNull => Some 0
  | VBool b => Some (if b then 1 else 0)
  | VNum n => Some n
  | _ => None
  end.

Definition is_string (v : value) : bool :=
  match v with VStr _ => true | _ => false end.

(** The binary [+]: string concatenation as soon as one primitive operand is
    a string, numeric addition otherwise. *)
Definition js_add (a b : value) : completion value :=
  pa ← to_primitive a;
  pb ← to_primitive b;
  if is_string pa || is_string pb then
    sa ← to_string pa;
    sb ← to_string pb;
    Normal (VStr (sa +:+ sb))
  else
    match to_number pa, to_number pb with
    | Some x, Some y => Normal (VNum (x + y))
    | _, _ => Normal VNaN
    end.

Definition isArray (v : value) : bool :=
  match v with VArr _ => true | _ => false end.

(** [data.length] and the rows of [...data], for a [data] that passed
    [Array.isArray]. *)
Definition array_elements (v : value) : list value :=
  match v with VArr l => l | _ => [] end.

(** ** Array methods with callbacks that can throw *)

(** [arr.filter(f)]: [f]'s result is coerced with ToBoolean. *)
Fixpoint js_filter (f : value -> completion value) (l : list value) : completion (list value) :=
  match l with
  | [] => Normal []
  | x :: rest =>
      keep ← f x;
      rest' ← js_filter f rest;
      Normal (if truthy keep then x :: rest' else rest')
  end.

(** [arr.reduce(f, init)]. *)
Fixpoint js_reduce (f : value -> value -> completion value) (l : list value) (acc : value)
  : completion value :=
  match l with
  | [] => Normal acc
  | x :: rest => acc' ← f acc x; js_reduce f rest acc'
  end.

(** [arr.sort(cmp)].  The language fixes the result only for a consistent
    comparator, for which every stable sort returns the same array; the model
    is the stable insertion sort engines use on short arrays: each element is
    placed into the sorted prefix before the first element it compares
    strictly below.  A comparator result of NaN ([None]) counts as [0]. *)
Definition sort_order (c : option Z) : Z :=
  match c with Some z => z | None => 0 end.

Fixpoint sort_insert (cmp : value -> value -> completion (option Z)) (pivot : value)
  (sorted : list value) : completion (list value) :=
  match sorted with
  | [] => Normal [pivot]
  | y :: rest =>
      c ← cmp pivot y;
      if sort_order c <? 0 then Normal (pivot :: y :: rest)
      else rest' ← sort_insert cmp pivot rest; Normal (y :: rest')
  end.

Fixpoint sort_into (cmp : value -> value -> completion (option Z)) (sorted l : list value)
  : completion (list value) :=
  match l with
  | [] => Normal sorted
  | x :: rest => sorted' ← sort_insert cmp x sorted; sort_into cmp sorted' rest
  end.

Definition js_sort (cmp : value -> value -> completion (option Z)) (l : list value)
  : completion (list value) :=
  sort_into cmp [] l.

(** [arr[0]]. *)
Definition first (l : list value) : value :=
  match l with x :: _ => x | [] => VUndefined end.

(** ** Dates *)

(** TimeClip: a time value beyond 8.64e15 ms is not a date. *)
Definition time_clip (t : option Z) : option Z :=
  match t with
  | Some ms => if Z.abs ms <=? 8640000000000000 then Some ms else None
  | None => None
  end.

(** The time value of [new Date(v)], [None] for an invalid date.  Parsing
    a string is the engine's business: [Date_parse] is its [Date.parse]. *)
Definition new_Date (Date_parse : string -> option Z) (v : value) : completion (option Z) :=
  p ← to_primitive v;
  match p with
  | VStr s => Normal (Date_parse s)
  | _ => Normal (time_clip (to_number p))
  end.

(** [d1 - d2] on two dates. *)
Definition date_minus (d1 d2 : option Z) : option Z :=
  match d1, d2 with
  | Some t1, Some t2 => Some (t1 - t2)
  | _, _ => None
  end.

(** ** [JSON.stringify(v, null, 2)] *)

Definition hex_digit (n : nat) : string :=
  String (Ascii.ascii_of_nat (if (n <? 10)%nat then 48 + n else 87 + n)) EmptyString.

Definition backslash : string := String (Ascii.ascii_of_nat 92) EmptyString.

(** QuoteJSONString, one character at a time. *)
Definition escape_char (c : Ascii.ascii) : string :=
  let n := Ascii.nat_of_ascii c in
  if (n =? 34)%nat then backslash +:+ dquote
  else if (n =? 92)%nat then backslash +:+ backslash
  else if (n =? 8)%nat then backslash +:+ "b"
  else if (n =? 9)%nat then backslash +:+ "t"
  else if (n =? 10)%nat then backslash +:+ "n"
  else if (n =? 12)%nat then backslash +:+ "f"
  else if (n =? 13)%nat then backslash +:+ "r"
  else if (n <? 32)%nat then backslash +:+ "u00" +:+ hex_digit (n / 16) +:+ hex_digit (n mod 16)
  else String c EmptyString.

Fixpoint escape (s : string) : string :=
  match s with
  | EmptyString => EmptyString
  | String c rest => escape_char c +:+ escape rest
  end.

Definition quote (s : string) : string := dquote +:+ escape s +:+ dquote.

(** The properties of an object that are serialized: a property whose value
    is [undefined] is left out. *)
Definition is_undefined (v : value) : bool :=
  match v with VUndefined => true | _ => false end.

Definition serialized_props (props : list (string * value)) : list (string * value) :=
  List.filter (fun kv => negb (is_undefined (snd kv))) props.

Definition gap : string := "  ".

Fixpoint stringify (indent : string) (v : value) : string :=
  let stepback := indent in
  let indent := indent +:+ gap in
  match v with
  | VUndefined | VNull | VNaN => "null"
  | VBool true => "true"
  | VBool false => "false"
  | VNum n => pretty n
  | VStr s => quote s
  | VArr [] => "[]"
  | VArr elems =>
      "[" +:+ newline +:+ indent
        +:+ join ("," +:+ newline +:+ indent) (map (stringify indent) elems)
        +:+ newline +:+ stepback +:+ "]"
  | VObj props =>
      let members :=
        (fix each (ps : list (string * value)) : list string :=
           match ps with
           | [] => []
           | (k, x) :: rest =>
               if is_undefined x then each rest
               else (quote k +:+ ": " +:+ stringify indent x) :: each rest
           end) props in
      match members with
      | [] => "{}"
      | _ =>
          "{" +:+ newline +:+ indent
            +:+ join ("," +:+ newline +:+ indent) members
            +:+ newline +:+ stepback +:+ "}"
      end
  end.

Definition JSON_stringify (v : value) : string := stringify EmptyString v.

(** The keys an object has in the written document. *)
Definition serialized_keys (v : value) : list string :=
  match v with
  | VObj props => map fst (serialized_props props)
  | _ => []
  end.

(** The keys of an object in memory. *)
Definition keys (v : value) : list string :=
  match v with
  | VObj props => map fst props
  | _ => []
  end.

(** ** The execution environment *)

(** A POSIX path: its segments below the root. *)
Definition path : Type := list string.

(** What the process reads from its surroundings: the two environment
    variables, the directory of the script ([__dirname]), the working
    directory, and the reading of the clock by [new Date().toISOString()]. *)
Record environment : Type := {
  env_GITHUB_ORG : option string;
  env_GITHUB_TOKEN : option string;
  dirname : path;
  cwd : path;
  clock : string
}.

Record request : Type := Request {
  url : string;
  headers : list (string * string)
}.

(** A response as [fetchJson] uses it: [text] and [json] are the outcomes of
    reading the body as text and of parsing it as JSON. *)
Record response : Type := Response {
  ok : bool;
  status : Z;
  text : completion string;
  json : completion value
}.

(** An argument of [path.resolve]: an absolute path or a relative one. *)
Inductive path_arg : Type :=
  | Abs (segments : path)
  | Rel (segments : path).

(** Normalisation of [.] and [..] while appending segments to an absolute
    path; [..] at the root stays at the root. *)
Fixpoint walk (base : path) (segments : path) : path :=
  match segments with
  | [] => base
  | seg :: rest =>
      if String.eqb seg ".." then walk (removelast base) rest
      else if String.eqb seg "." then walk base rest
      else walk (base ++ [seg]) rest
  end.

(** [path.resolve(...args)]: the arguments are applied from the working
    directory on, an absolute argument discarding what precedes it. *)
Definition path_resolve (working_dir : path) (args : list path_arg) : path :=
  fold_left (fun acc a =>
               match a with
               | Abs segs => walk [] segs
               | Rel segs => walk acc segs
               end) args working_dir.

(** [path.join(dir, name)] for an already resolved [dir]. *)
Definition path_join (dir : path) (segments : path) : path := walk dir segments.

(** ** The file system and the console *)

Record filesystem : Type := Filesystem {
  dirs : gset path;
  files : gmap path string
}.

(** What the operating system may refuse for reasons of its own (rights,
    space, a read-only volume): the error [mkdirSync] and [writeFileSync]
    would throw, if any. *)
Record fs_faults : Type := {
  mkdir_fault : option js_error;
  write_fault : option js_error
}.

Definition show_path (p : path) : string := "/" +:+ join "/" p.

(** A directory and every directory above it, the root included. *)
Definition ancestors (p : path) : list path :=
  map (fun n => take n p) (seq 0 (S (length p))).

Definition existsSync (fs : filesystem) (p : path) : bool :=
  bool_decide (p ∈ dirs fs) || bool_decide (is_Some (files fs !! p)).

(** [fs.mkdirSync(p, { recursive: true })]. *)
Definition mkdirSync (faults : fs_faults) (fs : filesystem) (p : path) : completion filesystem :=
  match mkdir_fault faults with
  | Some e => Throw e
  | None => Normal (Filesystem (dirs fs ∪ list_to_set (ancestors p)) (files fs))
  end.

(** [fs.writeFileSync(p, data)]: the file is created or replaced; its
    directory must exist. *)
Definition writeFileSync (faults : fs_faults) (fs : filesystem) (p : path) (data : string)
  : completion filesystem :=
  match write_fault faults with
  | Some e => Throw e
  | None =>
      if bool_decide (removelast p ∈ dirs fs)
      then Normal (Filesystem (dirs fs) (<[p := data]> (files fs)))
      else Throw (Error ("ENOENT: no such file or directory, open '" +:+ show_path p +:+ "'"))
  end.

Inductive console_entry : Type :=
  | console_log (line : string)
  | console_warn (line : string)
  | console_error (line : string) (e : js_error).

Section Script.

(** The environment of one run and the remote API it talks to. *)
Variable env : environment.
Variable fetch : request -> completion response.

(** Lines 13-20: the module-level constants. *)
Definition OUTPUT_DIR : path :=
  path_resolve (cwd env) [Abs (dirname env); Rel [".."]; Rel ["profile"]].

Definition OUTPUT_FILE : path := path_join OUTPUT_DIR ["stats.json"].

(** [process.env.X || fallback]: an unset and an empty variable are both
    falsy. *)
Definition env_truthy (x : option string) : option string :=
  match x with
  | Some s => if String.eqb s EmptyString then None else Some s
  | None => None
  end.

Definition GITHUB_ORG : string :=
  match env_truthy (env_GITHUB_ORG env) with
  | Some org => org
  | None => "abstract-data"
  end.

Definition GITHUB_TOKEN : option string := env_GITHUB_TOKEN env.

Definition HEADERS : list (string * string) :=
  ("Accept", "application/vnd.github+json")
    :: match env_truthy GITHUB_TOKEN with
       | Some token => [("Authorization", "Bearer " +:+ token)]
       | None => []
       end.

(** Line 23: the arguments of [fetch(url, { headers: HEADERS })]. *)
Definition request_of (u : string) : request := Request u HEADERS.

(** The runtime's [fetch]: the answer of the API, together with the call as
    the network sees it.  Every request of a run is recorded here, from the
    argument [fetch] received. *)
Definition call_fetch (r : request) : list request * completion response := ([r], fetch r).

(** Lines 22-29.  The one place the script calls [fetch]: the requests sent
    and the outcome. *)
Definition fetchJson_call (u : string) : list request * completion value :=
  let (sent, answer) := call_fetch (request_of u) in
  (sent,
   resp ← answer;
   if negb (ok resp) then
     t ← text resp;
     Throw (Error ("Failed request " +:+ u +:+ " -> " +:+ pretty (status resp) +:+ ": " +:+ t))
   else json resp).

(** The outcome alone. *)
Definition fetchJson (u : string) : completion value := snd (fetchJson_call u).

(** Lines 31-46.  One unit of fuel is one iteration of [while (true)], that
    is one page request; [None] says the loop is still running when the fuel
    is spent.  The requests that [fetchJson] sent and that were answered so
    far are returned with the outcome. *)
Definition perPage : Z := 100.

Definition org_url : string := "https://api.github.com/orgs/" +:+ GITHUB_ORG.

Definition repos_url (page : Z) : string :=
  "https://api.github.com/orgs/" +:+ GITHUB_ORG +:+ "/repos?per_page=" +:+ pretty perPage
    +:+ "&page=" +:+ pretty page +:+ "&type=all&sort=updated".

Fixpoint listLoop (fuel : nat) (repos : list value) (page : Z) (log : list request)
  : list request * option (completion (list value)) :=
  match fuel with
  | O => (log, None)
  | S fuel' =>
      let u := repos_url page in
      let (sent, outcome) := fetchJson_call u in
      let log' := log ++ sent in
      match outcome with
      | Throw e => (log', Some (Throw e))
      | Normal data =>
          if negb (isArray data) || (Z.of_nat (length (array_elements data)) =? 0)
          then (log', Some (Normal repos))
          else
            let repos' := repos ++ array_elements data in
            if Z.of_nat (length (array_elements data)) <? perPage
            then (log', Some (Normal repos'))
            else listLoop fuel' repos' (page + 1) log'
      end
  end.

Definition listOrgRepos (fuel : nat) : list request * option (completion (list value)) :=
  listLoop fuel [] 1 [].

(** The engine's date parser and the faults of the file system. *)
Variable Date_parse : string -> option Z.
Variable faults : fs_faults.

(** Line 57: the comparator of the sort, most recent first.  The left
    operand of [-] is evaluated first. *)
Definition by_latest_push (a b : value) : completion (option Z) :=
  pb ← get b "pushed_at";
  db ← new_Date Date_parse pb;
  pa ← get a "pushed_at";
  da ← new_Date Date_parse pa;
  Normal (date_minus db da).

(** Lines 59-60: the callbacks of the two [reduce] calls. *)
Definition add_count (field : string) (sum repo : value) : completion value :=
  n ← get repo field;
  js_add sum (js_or n (VNum 0)).

(** Lines 55-75: the body of the [try] block once both promises are
    fulfilled; [select_latest] is the expression of lines 55-57. *)
Definition select_latest (repos : list value) : completion value :=
  pushed ← js_filter (fun repo => get repo "pushed_at") repos;
  sorted ← js_sort by_latest_push pushed;
  Normal (first sorted).

Definition summarize (org : value) (repos : list value) : completion value :=
  latestRepo ← select_latest repos;
  totalStars ← js_reduce (add_count "stargazers_count") repos (VNum 0);
  totalForks ← js_reduce (add_count "forks_count") repos (VNum 0);
  public_repos ← get org "public_repos";
  total_private_repos ← get org "total_private_repos";
  followers ← get org "followers";
  public_members ← get org "public_members";
  latestPushedRepository ←
    (if truthy latestRepo then
       name ← get latestRepo "name";
       pushed_at ← get latestRepo "pushed_at";
       html_url ← get latestRepo "html_url";
       Normal (VObj [("name", name); ("pushedAt", pushed_at); ("htmlUrl", html_url)])
     else Normal VNull);
  Normal (VObj [
    ("organization", VStr GITHUB_ORG);
    ("publicRepos", js_coalesce public_repos (VNum (Z.of_nat (length repos))));
    ("privateRepos", js_coalesce total_private_repos (VNum 0));
    ("followers", js_coalesce followers (VNum 0));
    ("members", js_coalesce public_members (VNum 0));
    ("totalStars", totalStars);
    ("totalForks", totalForks);
    ("latestPushedRepository", latestPushedRepository)
  ]).

(** Lines 77-88: the [catch] block. *)
Definition warning (e : js_error) : console_entry :=
  console_warn ("[WARN] Unable to fetch GitHub metrics: " +:+ message e).

Definition degraded (e : js_error) : value :=
  VObj [
    ("organization", VStr GITHUB_ORG);
    ("publicRepos", VNum 0);
    ("privateRepos", VNum 0);
    ("followers", VNum 0);
    ("members", VNum 0);
    ("totalStars", VNum 0);
    ("totalForks", VNum 0);
    ("latestPushedRepository", VNull);
    ("error", VStr (message e))
  ].

(** [await Promise.all([fetchJson(org_url), listOrgRepos()])].  Both
    operations are started; the join is fulfilled when both are, and rejected
    with the reason of whichever rejects first.  [org_delay] is the number of
    repository pages that are answered before the organization request is:
    the listing settles first exactly when it settles within [org_delay]
    iterations.  The listing keeps running after a rejection of the
    organization request; the requests returned are those answered by the
    time the join settles. *)
Definition Promise_all (org_delay fuel : nat)
  : list request * option (completion (value * list value)) :=
  let (sent, organization) := fetchJson_call org_url in
  match organization with
  | Throw e1 =>
      let (log, listing) := listOrgRepos org_delay in
      (sent ++ log,
       Some (Throw (match listing with Some (Throw e2) => e2 | _ => e1 end)))
  | Normal org =>
      let (log, listing) := listOrgRepos fuel in
      (sent ++ log,
       match listing with
       | None => None
       | Some (Throw e2) => Some (Throw e2)
       | Some (Normal repos) => Some (Normal (org, repos))
       end)
  end.

(** Lines 48-90.  The outcome is [None] while the function has not
    returned. *)
Record aggregation : Type := Aggregation {
  agg_requests : list request;
  agg_console : list console_entry;
  agg_outcome : option (completion value)
}.

Definition fetchOrgMetrics (org_delay fuel : nat) : aggregation :=
  let (log, joined) := Promise_all org_delay fuel in
  match joined with
  | None => Aggregation log [] None
  | Some settled =>
      match (pair ← settled; summarize (fst pair) (snd pair)) with
      | Normal metrics => Aggregation log [] (Some (Normal metrics))
      | Throw error => Aggregation log [warning error] (Some (Normal (degraded error)))
      end
  end.

(** Lines 95-114: the payload. *)
Definition systems : value :=
  VArr [
    VObj [("name", VStr "Quantum Core Labs"); ("status", VStr "skunkworks");
          ("emphasis", VStr "#E7AE59")];
    VObj [("name", VStr "Campaign Intelligence Grid"); ("status", VStr "operational");
          ("emphasis", VStr "#AC2D21")]
  ].

(** [metrics.latestPushedRepository ? metrics.latestPushedRepository.k : null]. *)
Definition latest_field (metrics : value) (k : string) : completion value :=
  latest ← get metrics "latestPushedRepository";
  if truthy latest then get latest k else Normal VNull.

Definition build_payload (metrics : value) : completion value :=
  publicRepos ← get metrics "publicRepos";
  privateRepos ← get metrics "privateRepos";
  repos ← js_add publicRepos privateRepos;
  followers ← get metrics "followers";
  members ← get metrics "members";
  totalStars ← get metrics "totalStars";
  totalForks ← get metrics "totalForks";
  latestCommit ← latest_field metrics "pushedAt";
  latestRepository ← latest_field metrics "name";
  latestUrl ← latest_field metrics "htmlUrl";
  Normal (VObj [
    ("generatedAt", VStr (clock env));
    ("systems", systems);
    ("metrics", VObj [
       ("repos", repos);
       ("followers", followers);
       ("members", members);
       ("totalStars", totalStars);
       ("totalForks", totalForks);
       ("latestCommit", latestCommit);
       ("latestRepository", latestRepository)
     ]);
    ("sources", VObj [
       ("github", VStr ("https://github.com/" +:+ GITHUB_ORG));
       ("latestRepository", latestUrl)
     ])
  ]).

(** Lines 116-121: the writer.  The disk is returned as the calls left it,
    also when one of them throws. *)
Definition write_payload (fs : filesystem) (payload : value) : filesystem * completion unit :=
  let (fs1, made) :=
    if negb (existsSync fs OUTPUT_DIR) then
      match mkdirSync faults fs OUTPUT_DIR with
      | Normal fs' => (fs', Normal ())
      | Throw e => (fs, Throw e)
      end
    else (fs, Normal ()) in
  match made with
  | Throw e => (fs1, Throw e)
  | Normal _ =>
      match writeFileSync faults fs1 OUTPUT_FILE (JSON_stringify payload) with
      | Normal fs2 => (fs2, Normal ())
      | Throw e => (fs1, Throw e)
      end
  end.

(** Lines 92-122.  [main] has not returned while the aggregation has not. *)
Record run : Type := Run {
  run_console : list console_entry;
  run_disk : filesystem;
  run_outcome : option (completion unit)
}.

Definition main (org_delay fuel : nat) (fs : filesystem) : run :=
  let agg := fetchOrgMetrics org_delay fuel in
  match agg_outcome agg with
  | None => Run (agg_console agg) fs None
  | Some (Throw e) => Run (agg_console agg) fs (Some (Throw e))
  | Some (Normal metrics) =>
      match build_payload metrics with
      | Throw e => Run (agg_console agg) fs (Some (Throw e))
      | Normal payload =>
          match write_payload fs payload with
          | (fs', Throw e) => Run (agg_console agg) fs' (Some (Throw e))
          | (fs', Normal _) =>
              Run (agg_console agg
                     ++ [console_log ("Generated stats payload -> " +:+ show_path OUTPUT_FILE)])
                  fs' (Some (Normal ()))
          end
      end
  end.

(** Lines 124-127: the process.  A rejection of [main] is reported and the
    process exits with status 1.  Otherwise the process ends with status 0
    once nothing is left to do, which includes a listing still going on
    after the organization request failed; [None] says the process is still
    alive. *)
Record process : Type := Process {
  console : list console_entry;
  disk : filesystem;
  exit_code : option Z
}.

Definition run_process (org_delay fuel : nat) (fs : filesystem) : process :=
  let r := main org_delay fuel fs in
  match run_outcome r with
  | None => Process (run_console r) (run_disk r) None
  | Some (Throw error) =>
      Process (run_console r ++ [console_error "[ERROR] generate-stats failed:" error])
              (run_disk r) (Some 1)
  | Some (Normal _) =>
      Process (run_console r) (run_disk r)
              (match snd (listOrgRepos fuel) with Some _ => Some 0 | None => None end)
  end.

End Script.

(** * Vocabulary of the properties *)

(** A page that ends the loop: not an array, or an array shorter than
    [perPage] (an empty one included). *)
Definition short_page (data : value) : bool :=
  negb (isArray data) || (Z.of_nat (length (array_elements data)) <? perPage).

(** The requests for the [n] pages from [page] on. *)
Definition page_requests (env : environment) (page : Z) (n : nat) : list request :=
  map (fun k : nat => request_of env (repos_url env (page + Z.of_nat k))) (seq 0 n).

(** The value of a property of a row, [undefined] when there is none. *)
Definition field (row : value) (k : string) : value :=
  match get row k with Normal x => x | Throw _ => VUndefined end.

(** A repository with a non-null [pushed_at]. *)
Definition has_push (row : value) : bool := negb (nullish (field row "pushed_at")).

(** A repository row whose [pushed_at] is absent, null, or a timestamp the
    engine parses. *)
Definition well_dated (Date_parse : string -> option Z) (row : value) : Prop :=
  match row with
  | VObj props =>
      match lookup_prop "pushed_at" props with
      | None | Some VNull => True
      | Some (VStr s) => is_Some (Date_parse s)
      | Some _ => False
      end
  | _ => False
  end.

(** The time of the last push of a row, in milliseconds. *)
Definition push_time (Date_parse : string -> option Z) (row : value) : Z :=
  match field row "pushed_at" with
  | VStr s => default 0 (Date_parse s)
  | _ => 0
  end.

(** The most recent of [best] and the rows of [l], the earliest row among
    equally recent ones. *)
Fixpoint latest_of (t : value -> Z) (best : value) (l : list value) : value :=
  match l with
  | [] => best
  | x :: rest => latest_of t (if t best <? t x then x else best) rest
  end.

(** Insertion by push time, most recent first, after equally recent rows. *)
Fixpoint insert_by_time (t : value -> Z) (pivot : value) (sorted : list value) : list value :=
  match sorted with
  | [] => [pivot]
  | y :: rest => if t y - t pivot <? 0 then pivot :: y :: rest
                 else y :: insert_by_time t pivot rest
  end.

(** A well-formed row that has a push time. *)
Definition datable (Date_parse : string -> option Z) (r : value) : Prop :=
  well_dated Date_parse r /\ has_push r = true.

(** A repository row whose count [k] is absent, null, or a number. *)
Definition well_counted (k : string) (row : value) : Prop :=
  match row with
  | VObj props =>
      match lookup_prop k props with
      | None | Some VNull | Some (VNum _) => True
      | Some _ => False
      end
  | _ => False
  end.

(** The count [k] of a row, a missing one being 0, and the sum over rows. *)
Definition count_of (k : string) (row : value) : Z :=
  match field row k with VNum n => n | _ => 0 end.

Definition sum_counts (k : string) (rows : list value) : Z :=
  fold_right Z.add 0 (map (count_of k) rows).

(** The repository counts as the design document words them: the
    organization's own figure, and a fallback only when the figure is
    missing. *)
Definition spec_publicRepos (org : value) (repos : list value) : value :=
  match field org "public_repos" with
  | VUndefined | VNull => VNum (Z.of_nat (length repos))
  | n => n
  end.

Definition spec_privateRepos (org : value) : value :=
  match field org "total_private_repos" with
  | VUndefined | VNull => VNum 0
  | n => n
  end.

(** The degraded result: every figure 0, no latest repository, the message
    of the error. *)
Definition zeroed (m : value) (msg : string) : Prop :=
  get m "publicRepos" = Normal (VNum 0)
  /\ get m "privateRepos" = Normal (VNum 0)
  /\ get m "followers" = Normal (VNum 0)
  /\ get m "members" = Normal (VNum 0)
  /\ get m "totalStars" = Normal (VNum 0)
  /\ get m "totalForks" = Normal (VNum 0)
  /\ get m "latestPushedRepository" = Normal VNull
  /\ get m "error" = Normal (VStr msg).

(** The shapes of the aggregation result and of the payload. *)
Definition latest_object (r : value) : value :=
  if truthy r
  then VObj [("name", field r "name"); ("pushedAt", field r "pushed_at");
             ("htmlUrl", field r "html_url")]
  else VNull.

Definition metrics_object (env : environment) (public private followers members stars forks
                           latest : value) : value :=
  VObj [("organization", VStr (GITHUB_ORG env)); ("publicRepos", public);
        ("privateRepos", private); ("followers", followers); ("members", members);
        ("totalStars", stars); ("totalForks", forks); ("latestPushedRepository", latest)].

Definition payload_object (env : environment) (repos followers members stars forks
                           latestCommit latestRepository latestUrl : value) : value :=
  VObj [
    ("generatedAt", VStr (clock env));
    ("systems", systems);
    ("metrics", VObj [("repos", repos); ("followers", followers); ("members", members);
                      ("totalStars", stars); ("totalForks", forks);
                      ("latestCommit", latestCommit); ("latestRepository", latestRepository)]);
    ("sources", VObj [("github", VStr ("https://github.com/" +:+ GITHUB_ORG env));
                      ("latestRepository", latestUrl)])
  ].

(** A repository row whose [pushed_at] is absent, null or a string. *)
Definition plain_push (row : value) : Prop :=
  match row with
  | VObj props =>
      match lookup_prop "pushed_at" props with
      | None | Some VNull | Some (VStr _) => True
      | Some _ => False
      end
  | _ => False
  end.


(** The values of the [Authorization] headers of a request. *)
Definition authorization (r : request) : list string :=
  map snd (List.filter (fun h => String.eqb (fst h) "Authorization") (headers r)).

(** [payload.a.b]. *)
Definition get2 (payload : value) (a b : string) : completion value :=
  inner ← get payload a; get inner b.

(** ** A mock API and a date parser for concrete runs *)

Module Mock.

(** The timestamps GitHub writes, [YYYY-MM-DDTHH:MM:SSZ], as milliseconds
    since the epoch; anything else is not a date. *)
Fixpoint digits_value (acc : Z) (s : string) : option Z :=
  match s with
  | EmptyString => Some acc
  | String c rest =>
      let n := Z.of_nat (Ascii.nat_of_ascii c) in
      if (48 <=? n) && (n <=? 57) then digits_value (10 * acc + (n - 48)) rest else None
  end.

Definition days_from_civil (y m d : Z) : Z :=
  let y' := if m <=? 2 then y - 1 else y in
  let era := y' / 400 in
  let yoe := y' - era * 400 in
  let doy := (153 * (if 2 <? m then m - 3 else m + 9) + 2) / 5 + d - 1 in
  let doe := yoe * 365 + yoe / 4 - yoe / 100 + doy in
  era * 146097 + doe - 719468.

Definition field_at (s : string) (start len : nat) : option Z :=
  digits_value 0 (String.substring start len s).

Definition Date_parse (s : string) : option Z :=
  if negb (String.length s =? 20)%nat then None
  else if negb (String.eqb (String.substring 4 1 s) "-" && String.eqb (String.substring 7 1 s) "-"
                && String.eqb (String.substring 10 1 s) "T" && String.eqb (String.substring 13 1 s) ":"
                && String.eqb (String.substring 16 1 s) ":" && String.eqb (String.substring 19 1 s) "Z")
  then None
  else
    y ← field_at s 0 4; m ← field_at s 5 2; d ← field_at s 8 2;
    h ← field_at s 11 2; mi ← field_at s 14 2; sec ← field_at s 17 2;
    if (1 <=? m) && (m <=? 12) && (1 <=? d) && (d <=? 31) && (h <=? 23) && (mi <=? 59) && (sec <=? 59)
    then Some ((((days_from_civil y m d * 24 + h) * 60 + mi) * 60 + sec) * 1000)
    else None.

(** A repository row as the API lists it. *)
Definition row (name : string) (pushed_at stars forks : value) : value :=
  VObj [("name", VStr name); ("pushed_at", pushed_at); ("stargazers_count", stars);
        ("forks_count", forks); ("html_url", VStr ("https://github.com/abstract-data/" +:+ name))].

Definition ok_json (body : value) : completion response :=
  Normal (Response true 200 (Normal EmptyString) (Normal body)).

Definition http_error (code : Z) (body : string) : completion response :=
  Normal (Response false code (Normal body) (Throw (JsError "SyntaxError" "Unexpected token"))).

Definition network_error : completion response := Throw (TypeError "fetch failed").

(** The API that answers the organization request with [org] and the
    request for page [k] with the [k]-th element of [pages]. *)
Fixpoint page_answer (e : environment) (u : string) (k : Z) (pages : list (completion response))
  : completion response :=
  match pages with
  | [] => network_error
  | p :: rest => if String.eqb u (repos_url e k) then p else page_answer e u (k + 1) rest
  end.

Definition api (e : environment) (org : completion response) (pages : list (completion response))
  (r : request) : completion response :=
  if String.eqb (url r) (org_url e) then org else page_answer e (url r) 1 pages.

Definition env : environment :=
  {| env_GITHUB_ORG := None; env_GITHUB_TOKEN := Some "s3cret";
     dirname := ["repo"; "scripts"]; cwd := ["work"]; clock := "2024-05-01T09:00:00.000Z" |}.

Definition no_faults : fs_faults := {| mkdir_fault := None; write_fault := None |}.

Definition empty_disk : filesystem := Filesystem ∅ ∅.

Definition org_body : value :=
  VObj [("public_repos", VNum 3); ("total_private_repos", VNum 2);
        ("followers", VNum 7); ("public_members", VNum 4)].

(** A listing of 237 repositories in pages of 100, 100 and 37 rows, and an
    empty one. *)
Definition rows (n : nat) : list value := repeat (row "repo" VNull (VNum 1) (VNum 0)) n.

Definition three_pages : request -> completion response :=
  api env (ok_json org_body)
    [ok_json (VArr (rows 100)); ok_json (VArr (rows 100)); ok_json (VArr (rows 37))].

Definition no_repositories : request -> completion response :=
  api env (ok_json org_body) [ok_json (VArr [])].

(** The organization request is refused. *)
Definition org_down : request -> completion response :=
  api env (http_error 404 "Not Found") [ok_json (VArr (rows 2))].

(** Four repositories: two pushed at the same, latest, time, one never
    pushed; one without a star count, one without a fork count. *)
Definition dated_rows : list value :=
  [row "alpha" (VStr "2024-01-01T00:00:00Z") (VNum 3) (VNum 1);
   row "beta" (VStr "2024-03-01T12:34:56Z") VNull (VNum 2);
   row "gamma" VNull (VNum 4) VNull;
   row "delta" (VStr "2024-03-01T12:34:56Z") (VNum 5) (VNum 0)].

Definition listed : request -> completion response :=
  api env (ok_json org_body) [ok_json (VArr dated_rows)].


(** The only repository listed has a push time but neither name nor URL. *)
Definition nameless : request -> completion response :=
  api env (ok_json org_body) [ok_json (VArr [VObj [("pushed_at", VStr "2024-03-01T12:34:56Z")]])].

(** The second page of the listing is not JSON. *)
Definition garbled_body : completion response :=
  Normal (Response true 200 (Normal "<html>") (Throw (JsError "SyntaxError" "Unexpected token <"))).

(** The file system refuses the write. *)
Definition write_refused : fs_faults :=
  {| mkdir_fault := None;
     write_fault := Some (Error "EACCES: permission denied, open '/repo/profile/stats.json'") |}.

(** The same working directory, the script installed elsewhere. *)
Definition env_elsewhere : environment :=
  {| env_GITHUB_ORG := None; env_GITHUB_TOKEN := Some "s3cret";
     dirname := ["opt"; "tools"; "scripts"]; cwd := ["work"]; clock := "2024-05-01T09:00:00.000Z" |}.

(** The document that run leaves on disk. *)
Definition quoted (s : string) : string := dquote +:+ s +:+ dquote.

Definition nameless_file : string :=
  join newline [
    "{";
    "  " +:+ quoted "generatedAt" +:+ ": " +:+ quoted "2024-05-01T09:00:00.000Z" +:+ ",";
    "  " +:+ quoted "systems" +:+ ": [";
    "    {";
    "      " +:+ quoted "name" +:+ ": " +:+ quoted "Quantum Core Labs" +:+ ",";
    "      " +:+ quoted "status" +:+ ": " +:+ quoted "skunkworks" +:+ ",";
    "      " +:+ quoted "emphasis" +:+ ": " +:+ quoted "#E7AE59";
    "    },";
    "    {";
    "      " +:+ quoted "name" +:+ ": " +:+ quoted "Campaign Intelligence Grid" +:+ ",";
    "      " +:+ quoted "status" +:+ ": " +:+ quoted "operational" +:+ ",";
    "      " +:+ quoted "emphasis" +:+ ": " +:+ quoted "#AC2D21";
    "    }";
    "  ],";
    "  " +:+ quoted "metrics" +:+ ": {";
    "    " +:+ quoted "repos" +:+ ": 5,";
    "    " +:+ quoted "followers" +:+ ": 7,";
    "    " +:+ quoted "members" +:+ ": 4,";
    "    " +:+ quoted "totalStars" +:+ ": 0,";
    "    " +:+ quoted "totalForks" +:+ ": 0,";
    "    " +:+ quoted "latestCommit" +:+ ": " +:+ quoted "2024-03-01T12:34:56Z";
    "  },";
    "  " +:+ quoted "sources" +:+ ": {";
    "    " +:+ quoted "github" +:+ ": " +:+ quoted "https://github.com/abstract-data";
    "  }";
    "}"
  ].

(** What the aggregation and [main] compute in these runs. *)
Definition value_of (c : completion value) : value :=
  match c with Normal v => v | Throw _ => VUndefined end.

Definition listed_metrics : value :=
  Eval vm_compute in value_of (summarize env Date_parse org_body dated_rows).

Definition listed_payload : value :=
  Eval vm_compute in value_of (build_payload env listed_metrics).

Definition nameless_payload : value :=
  Eval vm_compute in
    value_of (metrics ← summarize env Date_parse org_body
                          [VObj [("pushed_at", VStr "2024-03-01T12:34:56Z")]];
              build_payload env metrics).

(** An API whose every page is full. *)
Definition endless (org : completion response) (r : request) : completion response :=
  if String.eqb (url r) (org_url env) then org else ok_json (VArr (rows 100)).

(** Organization bodies that are not what the API documents: [null], an
    empty object, and a count that is an object with a [toString] entry. *)
Definition null_org : request -> completion response :=
  api env (ok_json VNull) [ok_json (VArr dated_rows)].

Definition bare_org : request -> completion response :=
  api env (ok_json (VObj [])) [ok_json (VArr dated_rows)].

Definition odd_count_body : value :=
  VObj [("public_repos", VObj [("toString", VNum 1)]); ("followers", VNum 7)].

Definition odd_count : request -> completion response :=
  api env (ok_json odd_count_body) [ok_json (VArr dated_rows)].

Definition odd_count_metrics : value :=
  Eval vm_compute in value_of (summarize env Date_parse odd_count_body dated_rows).

Definition bare_metrics : value :=
  Eval vm_compute in value_of (summarize env Date_parse (VObj []) dated_rows).

End Mock.

(** * Properties *)

(** ** The script's functions, with the call to [fetch] spelled out *)

Section Unfolding.

Variable env : environment.
Variable fetch : request -> completion response.

Lemma fetchJson_call_eq (u : string) :
  fetchJson_call env fetch u = ([request_of env u], fetchJson env fetch u).
Proof. reflexivity. Qed.

Lemma fetchJson_eq (u : string) :
  fetchJson env fetch u
  = (resp ← fetch (request_of env u);
     if negb (ok resp) then
       t ← text resp;
       Throw (Error ("Failed request " +:+ u +:+ " -> " +:+ pretty (status resp)
                       +:+ ": " +:+ t))
     else json resp).
Proof. reflexivity. Qed.

Lemma listLoop_S (fuel : nat) (repos : list value) (page : Z) (log : list request) :
  listLoop env fetch (S fuel) repos page log
  = match fetchJson env fetch (repos_url env page) with
    | Throw e => (log ++ [request_of env (repos_url env page)], Some (Throw e))
    | Normal data =>
        if negb (isArray data) || (Z.of_nat (length (array_elements data)) =? 0)
        then (log ++ [request_of env (repos_url env page)], Some (Normal repos))
        else
          if Z.of_nat (length (array_elements data)) <? perPage
          then (log ++ [request_of env (repos_url env page)],
                Some (Normal (repos ++ array_elements data)))
          else listLoop env fetch fuel (repos ++ array_elements data) (page + 1)
                 (log ++ [request_of env (repos_url env page)])
    end.
Proof. reflexivity. Qed.

Lemma Promise_all_eq (org_delay fuel : nat) :
  Promise_all env fetch org_delay fuel
  = match fetchJson env fetch (org_url env) with
    | Throw e1 =>
        let (log, listing) := listOrgRepos env fetch org_delay in
        (request_of env (org_url env) :: log,
         Some (Throw (match listing with Some (Throw e2) => e2 | _ => e1 end)))
    | Normal org =>
        let (log, listing) := listOrgRepos env fetch fuel in
        (request_of env (org_url env) :: log,
         match listing with
         | None => None
         | Some (Throw e2) => Some (Throw e2)
         | Some (Normal repos) => Some (Normal (org, repos))
         end)
    end.
Proof. reflexivity. Qed.

End Unfolding.

Lemma append_assoc (a b c : string) : (a +:+ b) +:+ c = a +:+ (b +:+ c).
Proof.
  induction a as [|x a IH]; [reflexivity|].
  change (String x ((a +:+ b) +:+ c) = String x (a +:+ (b +:+ c))).
  rewrite IH. reflexivity.
Qed.

(** ** Pagination *)

Section Pagination.

Variable env : environment.
Variable fetch : request -> completion response.

Lemma page_requests_S page n :
  page_requests env page (S n) = request_of env (repos_url env page) :: page_requests env (page + 1) n.
Proof.
  unfold page_requests. cbn [seq map]. rewrite Z.add_0_r. f_equal.
  rewrite <- seq_shift, map_map. apply map_ext. intros k. do 2 f_equal. lia.
Qed.

(** The loop over full pages followed by one last answer: a failure, or a
    page that ends the loop. *)
Lemma listLoop_pages (full : list (list value)) :
  forall (fuel : nat) (repos : list value) (page : Z) (log : list request)
         (final : completion value),
    (forall (i : nat) (p : list value), full !! i = Some p ->
       fetchJson env fetch (repos_url env (page + Z.of_nat i)) = Normal (VArr p)
       /\ (100 <= length p)%nat) ->
    fetchJson env fetch (repos_url env (page + Z.of_nat (length full))) = final ->
    match final with Normal data => short_page data = true | Throw _ => True end ->
    (length full < fuel)%nat ->
    listLoop env fetch fuel repos page log
    = (log ++ page_requests env page (S (length full)),
       Some (data ← final; Normal (repos ++ concat full ++ array_elements data))).
Proof.
  induction full as [|p full IH]; intros fuel repos page log final Hfull Hfinal Hshort Hfuel.
  - destruct fuel as [|fuel]; [cbn in Hfuel; lia|].
    cbn [length] in Hfinal. rewrite Z.add_0_r in Hfinal.
    rewrite listLoop_S. rewrite Hfinal.
    rewrite page_requests_S. cbn [page_requests seq map].
    destruct final as [data|e]; [|reflexivity].
    unfold short_page, perPage in *. cbn [concat app mbind completion_bind].
    destruct data; cbn in *; rewrite ?app_nil_r; try reflexivity.
    destruct elems as [|x elems]; [cbn; rewrite app_nil_r; reflexivity|].
    cbn [length negb orb] in *.
    replace (Z.of_nat (S (length elems)) =? 0) with false by (symmetry; apply Z.eqb_neq; lia).
    rewrite Hshort. reflexivity.
  - destruct fuel as [|fuel]; [cbn in Hfuel; lia|].
    destruct (Hfull 0%nat p eq_refl) as [Hp Hlen]. rewrite Z.add_0_r in Hp.
    rewrite listLoop_S. rewrite Hp. cbn [isArray negb orb array_elements].
    replace (Z.of_nat (length p) =? 0) with false by (symmetry; apply Z.eqb_neq; lia).
    unfold perPage at 1.
    replace (Z.of_nat (length p) <? 100) with false by (symmetry; apply Z.ltb_ge; lia).
    rewrite (IH fuel (repos ++ p) (page + 1) _ final).
    + cbn [length]. rewrite (page_requests_S page (S (length full))), <- app_assoc. cbn [app concat].
      f_equal. destruct final; cbn; [|reflexivity].
      rewrite <- !app_assoc. reflexivity.
    + intros i q Hq. specialize (Hfull (S i) q Hq).
      replace (page + 1 + Z.of_nat i) with (page + Z.of_nat (S i)) by lia. exact Hfull.
    + rewrite <- Hfinal. cbn [length]. f_equal. f_equal. lia.
    + exact Hshort.
    + cbn in Hfuel. lia.
Qed.

(** The requests of the loop all come from [request_of]; one that fails is
    the last one and its error is the loop's; and the loop throws nothing
    but the error of a request that failed. *)
Lemma listLoop_trace (fuel : nat) :
  forall (repos : list value) (page : Z) (log : list request),
  exists extra : list request,
    fst (listLoop env fetch fuel repos page log) = log ++ extra
    /\ Forall (fun r => exists u, r = request_of env u) extra
    /\ (forall (u : string) (e : js_error),
          In (request_of env u) extra -> fetchJson env fetch u = Throw e ->
          snd (listLoop env fetch fuel repos page log) = Some (Throw e))
    /\ (forall e : js_error,
          snd (listLoop env fetch fuel repos page log) = Some (Throw e) ->
          exists u, In (request_of env u) extra /\ fetchJson env fetch u = Throw e).
Proof.
  induction fuel as [|fuel IH]; intros repos page log.
  - exists []. cbn. rewrite app_nil_r. repeat split; [constructor| |discriminate].
    intros u e [].
  - rewrite listLoop_S.
    assert (Hone : forall (r : option (completion (list value))),
               (forall e, r = Some (Throw e) -> fetchJson env fetch (repos_url env page) = Throw e) ->
               (forall e, fetchJson env fetch (repos_url env page) = Throw e -> r = Some (Throw e)) ->
               exists extra : list request,
                 fst (log ++ [request_of env (repos_url env page)], r) = log ++ extra
                 /\ Forall (fun r => exists u, r = request_of env u) extra
                 /\ (forall u e, In (request_of env u) extra -> fetchJson env fetch u = Throw e ->
                      snd (log ++ [request_of env (repos_url env page)], r) = Some (Throw e))
                 /\ (forall e, snd (log ++ [request_of env (repos_url env page)], r) = Some (Throw e) ->
                      exists u, In (request_of env u) extra /\ fetchJson env fetch u = Throw e)).
    { intros r Hr1 Hr2. exists [request_of env (repos_url env page)]. cbn [fst snd].
      repeat split.
      - constructor; [eauto|constructor].
      - intros u e [Hu|[]] He. injection Hu as Hu. apply Hr2. congruence.
      - intros e He. exists (repos_url env page). split; [left; reflexivity|auto]. }
    destruct (fetchJson env fetch (repos_url env page)) as [data|e0] eqn:Hpage.
    + match goal with |- context [if ?c then _ else _] => destruct c end;
        [apply Hone; [discriminate|discriminate]|].
      match goal with |- context [if ?c then _ else _] => destruct c end;
        [apply Hone; [discriminate|discriminate]|].
      destruct (IH (repos ++ array_elements data) (page + 1)
                   (log ++ [request_of env (repos_url env page)]))
        as (extra & Hlog & Hall & Hfail & Hthrow).
      exists (request_of env (repos_url env page) :: extra). repeat split.
      * rewrite Hlog, <- app_assoc. reflexivity.
      * constructor; eauto.
      * intros u e [Hu|Hu] He; [injection Hu as Hu; congruence|].
        eapply Hfail; eassumption.
      * intros e He. destruct (Hthrow e He) as (u & Hu & Hfu).
        exists u. split; [right; exact Hu|exact Hfu].
    + apply Hone; [intros e He; congruence|intros e He; congruence].
Qed.

Lemma listOrgRepos_trace (fuel : nat) :
  Forall (fun r => exists u, r = request_of env u) (fst (listOrgRepos env fetch fuel))
  /\ (forall (u : string) (e : js_error),
        In (request_of env u) (fst (listOrgRepos env fetch fuel)) ->
        fetchJson env fetch u = Throw e ->
        snd (listOrgRepos env fetch fuel) = Some (Throw e))
  /\ (forall e : js_error,
        snd (listOrgRepos env fetch fuel) = Some (Throw e) ->
        exists u, In (request_of env u) (fst (listOrgRepos env fetch fuel))
                  /\ fetchJson env fetch u = Throw e).
Proof.
  unfold listOrgRepos.
  destruct (listLoop_trace fuel [] 1 []) as (extra & Hlog & Hall & Hfail & Hthrow).
  rewrite Hlog. cbn [app]. auto.
Qed.

(** The listing from the first page on. *)
Lemma listOrgRepos_pages (full : list (list value)) (fuel : nat) (final : completion value) :
  (forall (i : nat) (p : list value), full !! i = Some p ->
     fetchJson env fetch (repos_url env (1 + Z.of_nat i)) = Normal (VArr p)
     /\ (100 <= length p)%nat) ->
  fetchJson env fetch (repos_url env (1 + Z.of_nat (length full))) = final ->
  match final with Normal data => short_page data = true | Throw _ => True end ->
  (length full < fuel)%nat ->
  listOrgRepos env fetch fuel
  = (page_requests env 1 (S (length full)),
     Some (data ← final; Normal (concat full ++ array_elements data))).
Proof.
  intros Hfull Hfinal Hshort Hfuel. unfold listOrgRepos.
  rewrite (listLoop_pages full fuel [] 1 [] final Hfull Hfinal Hshort Hfuel).
  reflexivity.
Qed.

End Pagination.

(** C2.  The listing asks for pages of 100 rows, goes on after every page
    that is not shorter than that, and stops at the first page that is
    (an empty one included), having gathered every row received.  Pages of
    100, 100 and 37 rows take exactly three requests and give 237
    repositories; an empty first page takes exactly one request and gives
    none. *)
Theorem pagination_stops_on_short_page (env : environment) (fetch : request -> completion response) :
  (forall page : Z,
     repos_url env page
     = "https://api.github.com/orgs/" +:+ GITHUB_ORG env +:+ "/repos?per_page=100&page="
         +:+ pretty page +:+ "&type=all&sort=updated")
  /\ (forall (full : list (list value)) (last : list value) (fuel : nat),
        (forall (i : nat) (p : list value), full !! i = Some p ->
           fetchJson env fetch (repos_url env (1 + Z.of_nat i)) = Normal (VArr p)
           /\ (100 <= length p)%nat) ->
        fetchJson env fetch (repos_url env (1 + Z.of_nat (length full))) = Normal (VArr last) ->
        (length last < 100)%nat ->
        (length full < fuel)%nat ->
        listOrgRepos env fetch fuel
        = (page_requests env 1 (S (length full)), Some (Normal (concat full ++ last))))
  /\ (forall (p1 p2 p3 : list value) (fuel : nat),
        length p1 = 100%nat -> length p2 = 100%nat -> length p3 = 37%nat ->
        fetchJson env fetch (repos_url env 1) = Normal (VArr p1) ->
        fetchJson env fetch (repos_url env 2) = Normal (VArr p2) ->
        fetchJson env fetch (repos_url env 3) = Normal (VArr p3) ->
        (3 <= fuel)%nat ->
        exists repos : list value,
          listOrgRepos env fetch fuel
          = ([request_of env (repos_url env 1); request_of env (repos_url env 2);
              request_of env (repos_url env 3)], Some (Normal repos))
          /\ length repos = 237%nat)
  /\ (forall fuel : nat,
        fetchJson env fetch (repos_url env 1) = Normal (VArr []) ->
        (1 <= fuel)%nat ->
        listOrgRepos env fetch fuel = ([request_of env (repos_url env 1)], Some (Normal []))).
Proof.
  split; [|split; [|split]].
  - intros page. unfold repos_url.
    replace (pretty perPage) with "100" by (vm_compute; reflexivity).
    reflexivity.
  - intros full last fuel Hfull Hlast Hlen Hfuel.
    rewrite (listOrgRepos_pages env fetch full fuel (Normal (VArr last)) Hfull Hlast).
    + reflexivity.
    + unfold short_page, perPage. cbn. apply Z.ltb_lt. lia.
    + exact Hfuel.
  - intros p1 p2 p3 fuel H1 H2 H3 Hp1 Hp2 Hp3 Hfuel.
    exists (p1 ++ p2 ++ p3). split.
    + rewrite (listOrgRepos_pages env fetch [p1; p2] fuel (Normal (VArr p3))).
      * cbn. rewrite app_nil_r, <- app_assoc. reflexivity.
      * intros [|[|i]] p Hp; cbn in Hp; inversion Hp; subst; cbn; split; auto; lia.
      * exact Hp3.
      * unfold short_page, perPage. cbn. apply Z.ltb_lt. lia.
      * cbn. lia.
    + rewrite !length_app. lia.
  - intros fuel Hp Hfuel.
    rewrite (listOrgRepos_pages env fetch [] fuel (Normal (VArr [])) ); cbn; auto.
    intros i p Hp'. discriminate.
Qed.

Lemma pagination_stops_on_short_page_witness :
  exists repos : list value,
    listOrgRepos Mock.env Mock.three_pages 3%nat
    = ([request_of Mock.env (repos_url Mock.env 1); request_of Mock.env (repos_url Mock.env 2);
        request_of Mock.env (repos_url Mock.env 3)], Some (Normal repos))
    /\ length repos = 237%nat.
Proof.
  apply (proj1 (proj2 (proj2 (pagination_stops_on_short_page Mock.env Mock.three_pages)))
           (Mock.rows 100) (Mock.rows 100) (Mock.rows 37) 3%nat);
    vm_compute; reflexivity.
Defined.

(** ** The aggregation never raises *)

Section Aggregation.

Variable env : environment.
Variable fetch : request -> completion response.
Variable Date_parse : string -> option Z.

Lemma degraded_zeroed (e : js_error) : zeroed (degraded env e) (message e).
Proof. repeat split. Qed.

(** The [catch] block: a rejected join gives the degraded result and one
    warning. *)
Lemma fetchOrgMetrics_rejected (org_delay fuel : nat) (log : list request) (e : js_error) :
  Promise_all env fetch org_delay fuel = (log, Some (Throw e)) ->
  fetchOrgMetrics env fetch Date_parse org_delay fuel
  = Aggregation log [warning e] (Some (Normal (degraded env e))).
Proof. intros H. unfold fetchOrgMetrics. rewrite H. reflexivity. Qed.

(** The [try] block: a fulfilled join gives what [summarize] gives. *)
Lemma fetchOrgMetrics_fulfilled (org_delay fuel : nat) (log : list request)
  (org : value) (repos : list value) :
  Promise_all env fetch org_delay fuel = (log, Some (Normal (org, repos))) ->
  fetchOrgMetrics env fetch Date_parse org_delay fuel
  = match summarize env Date_parse org repos with
    | Normal metrics => Aggregation log [] (Some (Normal metrics))
    | Throw e => Aggregation log [warning e] (Some (Normal (degraded env e)))
    end.
Proof. intros H. unfold fetchOrgMetrics. rewrite H. reflexivity. Qed.

Lemma fetchOrgMetrics_never_throws (org_delay fuel : nat) (e : js_error) :
  agg_outcome (fetchOrgMetrics env fetch Date_parse org_delay fuel) <> Some (Throw e).
Proof.
  unfold fetchOrgMetrics.
  destruct (Promise_all env fetch org_delay fuel) as [log [settled|]]; [|discriminate].
  destruct (_ ← settled; _); discriminate.
Qed.

(** The join when both requests succeed and the listing is over. *)
Lemma Promise_all_fulfilled (org_delay fuel : nat) (org : value) (repos : list value) :
  fetchJson env fetch (org_url env) = Normal org ->
  snd (listOrgRepos env fetch fuel) = Some (Normal repos) ->
  Promise_all env fetch org_delay fuel
  = (request_of env (org_url env) :: fst (listOrgRepos env fetch fuel),
     Some (Normal (org, repos))).
Proof.
  intros Horg Hrepos. rewrite Promise_all_eq. rewrite Horg.
  destruct (listOrgRepos env fetch fuel) as [log listing]. cbn in Hrepos. subst listing.
  reflexivity.
Qed.

(** A request that failed rejects the join, with the error of a request that
    failed. *)
Lemma Promise_all_rejected (org_delay fuel : nat) (u : string) (e0 : js_error) :
  In (request_of env u) (fst (Promise_all env fetch org_delay fuel)) ->
  fetchJson env fetch u = Throw e0 ->
  exists (u' : string) (e : js_error),
    In (request_of env u') (fst (Promise_all env fetch org_delay fuel))
    /\ fetchJson env fetch u' = Throw e
    /\ snd (Promise_all env fetch org_delay fuel) = Some (Throw e).
Proof.
  rewrite Promise_all_eq. intros Hin Hfail.
  destruct (fetchJson env fetch (org_url env)) as [org|e1] eqn:Horg.
  - destruct (listOrgRepos_trace env fetch fuel) as (_ & Hlast & _).
    destruct (listOrgRepos env fetch fuel) as [log listing]. cbn [fst snd] in *.
    destruct Hin as [Hu|Hu]; [injection Hu as Hu; congruence|].
    rewrite (Hlast u e0 Hu Hfail).
    exists u, e0. split; [right; exact Hu|auto].
  - destruct (listOrgRepos_trace env fetch org_delay) as (_ & _ & Hthrow).
    destruct (listOrgRepos env fetch org_delay) as [log listing]. cbn [fst snd] in *.
    destruct listing as [[repos|e2]|].
    + exists (org_url env), e1. split; [left; reflexivity|auto].
    + destruct (Hthrow e2 eq_refl) as (u' & Hu' & Hfu').
      exists u', e2. split; [right; exact Hu'|auto].
    + exists (org_url env), e1. split; [left; reflexivity|auto].
Qed.

Lemma Promise_all_org_rejected (org_delay fuel : nat) (e1 : js_error) :
  fetchJson env fetch (org_url env) = Throw e1 ->
  exists e : js_error, snd (Promise_all env fetch org_delay fuel) = Some (Throw e).
Proof.
  intros Horg. rewrite Promise_all_eq. rewrite Horg.
  destruct (listOrgRepos env fetch org_delay) as [log listing]. cbn. eauto.
Qed.

(** C1.  [fetchOrgMetrics] never raises to its caller.  Whenever the
    organization request or a repository page request it issued has failed,
    it returns a result whose six figures are 0, whose
    [latestPushedRepository] is null and whose [error] is the message of a
    failed request, after one warning carrying that message; and a failure
    of the organization request is reported even if the listing never
    ends. *)
Theorem fetchOrgMetrics_degrades_on_failure (org_delay fuel : nat) :
  let agg := fetchOrgMetrics env fetch Date_parse org_delay fuel in
  (forall e : js_error, agg_outcome agg <> Some (Throw e))
  /\ (forall (u : string) (e0 : js_error),
        In (request_of env u) (agg_requests agg) ->
        fetchJson env fetch u = Throw e0 ->
        exists (u' : string) (e : js_error) (m : value),
          In (request_of env u') (agg_requests agg)
          /\ fetchJson env fetch u' = Throw e
          /\ agg_outcome agg = Some (Normal m)
          /\ zeroed m (message e)
          /\ agg_console agg
             = [console_warn ("[WARN] Unable to fetch GitHub metrics: " +:+ message e)])
  /\ (forall e1 : js_error,
        fetchJson env fetch (org_url env) = Throw e1 ->
        In (request_of env (org_url env)) (agg_requests agg)
        /\ agg_outcome agg <> None).
Proof.
  cbv zeta. split; [|split].
  - apply fetchOrgMetrics_never_throws.
  - intros u e0 Hin Hfail.
    assert (Hlog : agg_requests (fetchOrgMetrics env fetch Date_parse org_delay fuel)
                   = fst (Promise_all env fetch org_delay fuel)).
    { unfold fetchOrgMetrics.
      destruct (Promise_all env fetch org_delay fuel) as [log [settled|]]; [|reflexivity].
      destruct (_ ← settled; _); reflexivity. }
    rewrite Hlog in *.
    destruct (Promise_all_rejected org_delay fuel u e0 Hin Hfail) as (u' & e & Hu' & Hfu' & Hrej).
    exists u', e, (degraded env e).
    destruct (Promise_all env fetch org_delay fuel) as [log joined] eqn:Hjoin.
    cbn [fst snd] in *. subst joined.
    rewrite (fetchOrgMetrics_rejected org_delay fuel log e Hjoin). cbn.
    repeat split; auto.
  - intros e1 Horg.
    destruct (Promise_all_org_rejected org_delay fuel e1 Horg) as (e & Hrej).
    destruct (Promise_all env fetch org_delay fuel) as [log joined] eqn:Hjoin.
    cbn [snd] in Hrej. subst joined.
    rewrite (fetchOrgMetrics_rejected org_delay fuel log e Hjoin). cbn.
    split; [|discriminate].
    rewrite Promise_all_eq in Hjoin. rewrite Horg in Hjoin.
    destruct (listOrgRepos env fetch org_delay). injection Hjoin as <- _. left. reflexivity.
Qed.

End Aggregation.

(** ** The most recently pushed repository *)

Section Selection.

Variable env : environment.
Variable Date_parse : string -> option Z.

(** The engine's parser does not read the empty string as a date. *)
Hypothesis Date_parse_empty : Date_parse EmptyString = None.

(** [filter] keeps only rows whose [pushed_at] is truthy, in order. *)
Lemma js_filter_kept (rows kept : list value) :
  js_filter (fun repo => get repo "pushed_at") rows = Normal kept ->
  forall r : value, In r kept ->
    In r rows /\ exists p, get r "pushed_at" = Normal p /\ truthy p = true.
Proof.
  revert kept. induction rows as [|x rows IH]; intros kept Hk r Hr.
  - injection Hk as <-. destruct Hr.
  - cbn [js_filter] in Hk.
    destruct (get x "pushed_at") as [p|e] eqn:Hp; [|discriminate].
    cbn [mbind completion_bind] in Hk.
    destruct (js_filter _ rows) as [kept'|e]; [|discriminate].
    cbn [mbind completion_bind] in Hk. injection Hk as <-.
    destruct (truthy p) eqn:Ht.
    + destruct Hr as [<-|Hr]; [split; [left; reflexivity|eauto]|].
      destruct (IH kept' eq_refl r Hr) as [Hin Hex]. split; [right; exact Hin|exact Hex].
    + destruct (IH kept' eq_refl r Hr) as [Hin Hex]. split; [right; exact Hin|exact Hex].
Qed.

(** On well-formed rows it is the filter on a non-null [pushed_at]. *)
Lemma js_filter_well_dated (rows : list value) :
  Forall (well_dated Date_parse) rows ->
  js_filter (fun repo => get repo "pushed_at") rows = Normal (List.filter has_push rows).
Proof.
  induction 1 as [|x rows Hx _ IH]; [reflexivity|].
  cbn [js_filter List.filter]. rewrite IH.
  destruct x; try contradiction. unfold has_push, field. cbn [get well_dated] in *.
  destruct (lookup_prop "pushed_at" props) as [[]|]; try contradiction; try reflexivity.
  cbn. destruct (String.eqb_spec s EmptyString) as [->|]; [|reflexivity].
  rewrite Date_parse_empty in Hx. destruct Hx as [? [=]].
Qed.

(** The comparator on two well-formed rows that have a push time. *)
Lemma by_latest_push_dated (a b : value) :
  well_dated Date_parse a -> well_dated Date_parse b ->
  has_push a = true -> has_push b = true ->
  by_latest_push Date_parse a b
  = Normal (Some (push_time Date_parse b - push_time Date_parse a)).
Proof.
  unfold has_push, push_time, field, by_latest_push.
  destruct a as [| | | | | | |pa]; try contradiction.
  destruct b as [| | | | | | |pb]; try contradiction.
  cbn [well_dated get]. intros Ha Hb Hpa Hpb.
  destruct (lookup_prop "pushed_at" pa) as [[]|]; try contradiction; try discriminate.
  destruct (lookup_prop "pushed_at" pb) as [[]|]; try contradiction; try discriminate.
  destruct Ha as [ta Hta], Hb as [tb Htb].
  cbn. rewrite Hta, Htb. reflexivity.
Qed.

Lemma sort_insert_dated (pivot : value) (sorted : list value) :
  datable Date_parse pivot -> Forall (datable Date_parse) sorted ->
  sort_insert (by_latest_push Date_parse) pivot sorted
  = Normal (insert_by_time (push_time Date_parse) pivot sorted).
Proof.
  intros [Hp1 Hp2]. induction 1 as [|y rest [Hy1 Hy2] _ IH]; [reflexivity|].
  cbn [sort_insert insert_by_time].
  rewrite (by_latest_push_dated pivot y Hp1 Hy1 Hp2 Hy2).
  cbn [mbind completion_bind sort_order].
  destruct (_ <? 0); [reflexivity|]. rewrite IH. reflexivity.
Qed.

Lemma insert_by_time_datable (pivot : value) (sorted : list value) :
  datable Date_parse pivot -> Forall (datable Date_parse) sorted ->
  Forall (datable Date_parse) (insert_by_time (push_time Date_parse) pivot sorted).
Proof.
  intros Hp. induction 1 as [|y rest Hy Hrest IH]; cbn [insert_by_time].
  - constructor; [exact Hp|constructor].
  - destruct (_ <? 0); [constructor; [exact Hp|constructor; assumption]|].
    constructor; assumption.
Qed.

(** The head of the sorted prefix is the most recent row seen so far, the
    first one among equals. *)
Lemma sort_into_dated (l : list value) :
  forall (y : value) (sorted : list value),
    Forall (datable Date_parse) (y :: sorted) -> Forall (datable Date_parse) l ->
    exists rest : list value,
      sort_into (by_latest_push Date_parse) (y :: sorted) l
      = Normal (latest_of (push_time Date_parse) y l :: rest)
      /\ Forall (datable Date_parse) rest.
Proof.
  induction l as [|x l IH]; intros y sorted Hs Hl.
  - exists sorted. split; [reflexivity|]. inversion Hs; assumption.
  - inversion Hl as [|? ? Hx Hl']; subst.
    cbn [sort_into latest_of].
    rewrite (sort_insert_dated x (y :: sorted) Hx Hs).
    cbn [mbind completion_bind insert_by_time].
    pose proof (insert_by_time_datable x sorted Hx) as Hins.
    inversion Hs as [|? ? Hy Hs']; subst.
    replace (push_time Date_parse y - push_time Date_parse x <? 0)
      with (push_time Date_parse y <? push_time Date_parse x)
      by (destruct (Z.ltb_spec (push_time Date_parse y) (push_time Date_parse x));
          symmetry; [apply Z.ltb_lt|apply Z.ltb_ge]; lia).
    destruct (push_time Date_parse y <? push_time Date_parse x).
    + apply IH; [constructor; assumption|assumption].
    + apply IH; [constructor; auto|assumption].
Qed.

(** [latest_of] picks a row that no other row is more recent than, and that
    every row before it is strictly older than. *)
Lemma latest_of_spec (t : value -> Z) (l : list value) :
  forall best : value,
  exists before after : list value,
    best :: l = before ++ latest_of t best l :: after
    /\ (forall y, In y before -> t y < t (latest_of t best l))
    /\ (forall y, In y after -> t y <= t (latest_of t best l)).
Proof.
  induction l as [|x l IH]; intros best.
  - exists [], []. cbn. repeat split; intros y [].
  - cbn [latest_of]. destruct (Z.ltb_spec (t best) (t x)) as [Hlt|Hge].
    + destruct (IH x) as (before & after & Heq & Hb & Ha).
      exists (best :: before), after. rewrite Heq. repeat split; [|exact Ha].
      intros y [<-|Hy]; [|auto].
      assert (t x <= t (latest_of t x l)); [|lia].
      assert (Hx : In x (before ++ latest_of t x l :: after)) by (rewrite <- Heq; left; reflexivity).
      apply in_app_or in Hx. destruct Hx as [Hx|[Hx|Hx]].
      * specialize (Hb x Hx). lia.
      * rewrite Hx. lia.
      * auto.
    + destruct (IH best) as (before & after & Heq & Hb & Ha).
      destruct before as [|b before].
      * injection Heq as Hbest Hl.
        exists [], (x :: after). rewrite <- Hbest at 1. rewrite <- Hl. repeat split.
        -- intros y [].
        -- intros y [<-|Hy]; [rewrite <- Hbest; lia|apply Ha; rewrite <- Hl; exact Hy].
      * injection Heq as <- Hl.
        exists (best :: x :: before), after.
        split; [cbn [app]; do 2 f_equal; exact Hl|]. split; [|exact Ha].
        intros y [<-|[<-|Hy]].
        -- apply Hb. left. reflexivity.
        -- specialize (Hb best (or_introl eq_refl)). lia.
        -- apply Hb. right. exact Hy.
Qed.

End Selection.

(** ** The shape of the result and of the payload *)

Section Shapes.

Variable env : environment.
Variable Date_parse : string -> option Z.

Lemma get_field (v : value) (k : string) (x : value) : get v k = Normal x -> field v k = x.
Proof. unfold field. intros ->. reflexivity. Qed.

Lemma get_truthy (v : value) (k : string) : truthy v = true -> get v k = Normal (field v k).
Proof. unfold field. destruct v; try discriminate; reflexivity. Qed.

Lemma coalesce_public (org : value) (repos : list value) :
  js_coalesce (field org "public_repos") (VNum (Z.of_nat (length repos)))
  = spec_publicRepos org repos.
Proof. unfold spec_publicRepos, js_coalesce. destruct (field org "public_repos"); reflexivity. Qed.

Lemma coalesce_private (org : value) :
  js_coalesce (field org "total_private_repos") (VNum 0) = spec_privateRepos org.
Proof.
  unfold spec_privateRepos, js_coalesce. destruct (field org "total_private_repos"); reflexivity.
Qed.

(** What a successful [summarize] has computed. *)
Lemma summarize_inv (org : value) (repos : list value) (metrics : value) :
  summarize env Date_parse org repos = Normal metrics ->
  exists r stars forks : value,
    select_latest Date_parse repos = Normal r
    /\ js_reduce (add_count "stargazers_count") repos (VNum 0) = Normal stars
    /\ js_reduce (add_count "forks_count") repos (VNum 0) = Normal forks
    /\ metrics
       = metrics_object env (spec_publicRepos org repos) (spec_privateRepos org)
           (js_coalesce (field org "followers") (VNum 0))
           (js_coalesce (field org "public_members") (VNum 0))
           stars forks (latest_object r).
Proof.
  unfold summarize. intros H.
  destruct (select_latest Date_parse repos) as [r|] eqn:Hsel; [|discriminate].
  cbn [mbind completion_bind] in H.
  destruct (js_reduce (add_count "stargazers_count") repos (VNum 0)) as [stars|] eqn:Hstars;
    [|discriminate].
  cbn [mbind completion_bind] in H.
  destruct (js_reduce (add_count "forks_count") repos (VNum 0)) as [forks|] eqn:Hforks;
    [|discriminate].
  cbn [mbind completion_bind] in H.
  destruct (get org "public_repos") as [pub|] eqn:Hpub; [|discriminate].
  destruct (get org "total_private_repos") as [priv|] eqn:Hpriv; [|discriminate].
  destruct (get org "followers") as [fol|] eqn:Hfol; [|discriminate].
  destruct (get org "public_members") as [mem|] eqn:Hmem; [|discriminate].
  cbn [mbind completion_bind] in H.
  apply get_field in Hpub, Hpriv, Hfol, Hmem. subst pub priv fol mem.
  rewrite coalesce_public, coalesce_private in H.
  exists r, stars, forks. repeat split; auto.
  unfold latest_object. destruct (truthy r) eqn:Ht.
  - rewrite !(get_truthy r _ Ht) in H. cbn [mbind completion_bind] in H.
    injection H as <-. reflexivity.
  - cbn [mbind completion_bind] in H. injection H as <-. reflexivity.
Qed.

(** The payload built from such a result. *)
Lemma build_payload_summary (public private followers members stars forks r : value) :
  build_payload env (metrics_object env public private followers members stars forks
                       (latest_object r))
  = (total ← js_add public private;
     Normal (payload_object env total followers members stars forks
               (if truthy r then field r "pushed_at" else VNull)
               (if truthy r then field r "name" else VNull)
               (if truthy r then field r "html_url" else VNull))).
Proof. unfold latest_object. destruct (truthy r); reflexivity. Qed.

(** The payload built from the degraded result: the error is not in it. *)
Lemma build_payload_degraded (e : js_error) :
  build_payload env (degraded env e)
  = Normal (payload_object env (VNum 0) (VNum 0) (VNum 0) (VNum 0) (VNum 0) VNull VNull VNull).
Proof. reflexivity. Qed.

End Shapes.

Section Latest.

Variable env : environment.
Variable Date_parse : string -> option Z.

Lemma filter_datable (rows : list value) :
  Forall (well_dated Date_parse) rows ->
  Forall (datable Date_parse) (List.filter has_push rows).
Proof.
  induction 1 as [|x rows Hx _ IH]; [constructor|].
  cbn [List.filter]. destruct (has_push x) eqn:Hp; [|exact IH].
  constructor; [split; assumption|exact IH].
Qed.

(** Without a row that has a truthy [pushed_at] nothing is selected. *)
Lemma select_latest_none (repos : list value) (r : value) :
  List.filter has_push repos = [] ->
  select_latest Date_parse repos = Normal r -> r = VUndefined.
Proof.
  unfold select_latest. intros Hnone H.
  destruct (js_filter _ repos) as [kept|] eqn:Hkept; [|discriminate].
  destruct kept as [|x kept].
  - cbn in H. injection H as <-. reflexivity.
  - destruct (js_filter_kept repos (x :: kept) Hkept x (or_introl eq_refl))
      as (Hin & p & Hp & Ht).
    assert (Hx : In x (List.filter has_push repos)).
    { apply filter_In. split; [exact Hin|]. unfold has_push.
      rewrite (get_field _ _ _ Hp). destruct p; try discriminate; reflexivity. }
    rewrite Hnone in Hx. destruct Hx.
Qed.

End Latest.

(** ** Stars and forks *)

Section Totals.

Variable env : environment.
Variable Date_parse : string -> option Z.

Lemma add_count_well_counted (k : string) (acc : Z) (row : value) :
  well_counted k row ->
  add_count k (VNum acc) row = Normal (VNum (acc + count_of k row)).
Proof.
  unfold add_count, count_of, field.
  destruct row as [| | | | | | |props]; try contradiction.
  cbn [well_counted get]. intros Hk.
  destruct (lookup_prop k props) as [[]|]; try contradiction;
    cbn [mbind completion_bind]; unfold js_or; cbn [truthy];
    try (unfold js_add; cbn; rewrite Z.add_0_r; reflexivity).
  destruct (Z.eqb_spec n 0) as [->|]; reflexivity.
Qed.

Lemma js_reduce_add_count (k : string) (rows : list value) :
  Forall (well_counted k) rows ->
  forall acc : Z,
    js_reduce (add_count k) rows (VNum acc) = Normal (VNum (acc + sum_counts k rows)).
Proof.
  induction 1 as [|row rows Hrow _ IH]; intros acc.
  - cbn. rewrite Z.add_0_r. reflexivity.
  - cbn [js_reduce]. rewrite (add_count_well_counted k acc row Hrow).
    cbn [mbind completion_bind]. rewrite IH. unfold sum_counts. cbn [map fold_right].
    do 2 f_equal. lia.
Qed.

End Totals.

(** ** Writing the payload *)

Section Writer.

Variable env : environment.
Variable fetch : request -> completion response.
Variable Date_parse : string -> option Z.
Variable faults : fs_faults.

Lemma OUTPUT_FILE_in_dir : OUTPUT_FILE env = OUTPUT_DIR env ++ ["stats.json"].
Proof. reflexivity. Qed.

(** The output path hangs below the parent of the script's directory. *)
Lemma OUTPUT_DIR_dirname :
  OUTPUT_DIR env = removelast (walk [] (dirname env)) ++ ["profile"].
Proof. reflexivity. Qed.

Lemma ancestors_self (p : path) : p ∈ (list_to_set (ancestors p) : gset path).
Proof.
  apply elem_of_list_to_set, list_elem_of_In. unfold ancestors.
  apply in_map_iff. exists (length p). split; [apply firstn_all|].
  apply in_seq. lia.
Qed.

(** Without a fault, and unless a regular file sits where the directory
    belongs, the writer makes the directory if needed and puts the document
    in place. *)
Lemma write_payload_ok (fs : filesystem) (payload : value) :
  mkdir_fault faults = None -> write_fault faults = None ->
  files fs !! OUTPUT_DIR env = None ->
  exists made : gset path,
    write_payload env faults fs payload
    = (Filesystem made (<[OUTPUT_FILE env := JSON_stringify payload]> (files fs)), Normal ())
    /\ OUTPUT_DIR env ∈ made
    /\ dirs fs ⊆ made.
Proof.
  intros Hmk Hwr Hfile. unfold write_payload, existsSync, mkdirSync, writeFileSync.
  rewrite Hmk, Hwr, Hfile, OUTPUT_FILE_in_dir, removelast_last.
  rewrite (bool_decide_eq_false_2 (is_Some None)) by (intros [? [=]]).
  rewrite orb_false_r.
  destruct (decide (OUTPUT_DIR env ∈ dirs fs)) as [Hin|Hnin].
  - rewrite (bool_decide_eq_true_2 _ Hin). cbn [negb].
    rewrite (bool_decide_eq_true_2 _ Hin).
    exists (dirs fs). split; [reflexivity|]. split; [exact Hin|reflexivity].
  - rewrite (bool_decide_eq_false_2 _ Hnin). cbn [negb dirs files].
    assert (Hmade : OUTPUT_DIR env ∈ dirs fs ∪ list_to_set (ancestors (OUTPUT_DIR env)))
      by (apply elem_of_union_r, ancestors_self).
    rewrite (bool_decide_eq_true_2 _ Hmade).
    eexists. split; [reflexivity|]. split; [exact Hmade|apply union_subseteq_l].
Qed.

(** A fault of [writeFileSync] is thrown; the document is not written. *)
Lemma write_payload_write_fault (fs : filesystem) (payload : value) (e : js_error) :
  mkdir_fault faults = None -> write_fault faults = Some e ->
  exists fs' : filesystem,
    write_payload env faults fs payload = (fs', Throw e) /\ files fs' = files fs.
Proof.
  intros Hmk Hwr. unfold write_payload, mkdirSync, writeFileSync. rewrite Hmk, Hwr.
  destruct (negb (existsSync fs (OUTPUT_DIR env))); eexists; split; reflexivity.
Qed.

(** A fault of [mkdirSync] is thrown when the directory has to be made. *)
Lemma write_payload_mkdir_fault (fs : filesystem) (payload : value) (e : js_error) :
  mkdir_fault faults = Some e -> existsSync fs (OUTPUT_DIR env) = false ->
  write_payload env faults fs payload = (fs, Throw e).
Proof.
  intros Hmk Hex. unfold write_payload, mkdirSync. rewrite Hmk, Hex. reflexivity.
Qed.

(** [main] once the aggregation has returned and the payload is built. *)
Lemma main_payload (org_delay fuel : nat) (fs : filesystem) (metrics payload : value) :
  agg_outcome (fetchOrgMetrics env fetch Date_parse org_delay fuel) = Some (Normal metrics) ->
  build_payload env metrics = Normal payload ->
  main env fetch Date_parse faults org_delay fuel fs
  = let agg := fetchOrgMetrics env fetch Date_parse org_delay fuel in
    match write_payload env faults fs payload with
    | (fs', Throw e) => Run (agg_console agg) fs' (Some (Throw e))
    | (fs', Normal _) =>
        Run (agg_console agg
               ++ [console_log ("Generated stats payload -> " +:+ show_path (OUTPUT_FILE env))])
            fs' (Some (Normal ()))
    end.
Proof. intros Hagg Hpay. unfold main. rewrite Hagg, Hpay. reflexivity. Qed.

Lemma main_writes (org_delay fuel : nat) (fs : filesystem) (metrics payload : value) :
  agg_outcome (fetchOrgMetrics env fetch Date_parse org_delay fuel) = Some (Normal metrics) ->
  build_payload env metrics = Normal payload ->
  mkdir_fault faults = None -> write_fault faults = None ->
  files fs !! OUTPUT_DIR env = None ->
  exists made : gset path,
    main env fetch Date_parse faults org_delay fuel fs
    = Run (agg_console (fetchOrgMetrics env fetch Date_parse org_delay fuel)
             ++ [console_log ("Generated stats payload -> " +:+ show_path (OUTPUT_FILE env))])
          (Filesystem made (<[OUTPUT_FILE env := JSON_stringify payload]> (files fs)))
          (Some (Normal ()))
    /\ OUTPUT_DIR env ∈ made
    /\ dirs fs ⊆ made.
Proof.
  intros Hagg Hpay Hmk Hwr Hfile.
  destruct (write_payload_ok fs payload Hmk Hwr Hfile) as (made & Hw & Hdir & Hsub).
  exists made. rewrite (main_payload org_delay fuel fs metrics payload Hagg Hpay).
  cbv zeta. rewrite Hw. auto.
Qed.

(** What [build_payload] returns is a payload of the fixed shape. *)
Lemma build_payload_inv (metrics payload : value) :
  build_payload env metrics = Normal payload ->
  exists repos followers members stars forks latestCommit latestRepository latestUrl : value,
    payload = payload_object env repos followers members stars forks
                latestCommit latestRepository latestUrl.
Proof.
  unfold build_payload, payload_object. intros H.
  repeat match type of H with
         | mbind _ ?c = Normal _ =>
             let x := fresh "x" in
             destruct c as [x|]; [cbn [mbind completion_bind] in H|discriminate]
         end.
  injection H as <-. eauto 10.
Qed.

End Writer.

(** ** The headers of the requests *)

Section Requests.

Variable env : environment.
Variable fetch : request -> completion response.
Variable Date_parse : string -> option Z.

Lemma authorization_request_of (u : string) :
  authorization (request_of env u)
  = match env_GITHUB_TOKEN env with
    | Some token => if String.eqb token EmptyString then [] else ["Bearer " +:+ token]
    | None => []
    end.
Proof.
  unfold authorization, request_of, HEADERS, GITHUB_TOKEN, env_truthy. cbn [headers].
  destruct (env_GITHUB_TOKEN env) as [token|]; [|reflexivity].
  destruct (String.eqb token EmptyString); reflexivity.
Qed.

Lemma agg_requests_Promise_all (org_delay fuel : nat) :
  agg_requests (fetchOrgMetrics env fetch Date_parse org_delay fuel)
  = fst (Promise_all env fetch org_delay fuel).
Proof.
  unfold fetchOrgMetrics.
  destruct (Promise_all env fetch org_delay fuel) as [log [settled|]]; [|reflexivity].
  destruct (_ ← settled; _); reflexivity.
Qed.

Lemma Promise_all_requests (org_delay fuel : nat) :
  Forall (fun r => exists u, r = request_of env u) (fst (Promise_all env fetch org_delay fuel)).
Proof.
  rewrite Promise_all_eq.
  destruct (fetchJson env fetch (org_url env)).
  - destruct (listOrgRepos_trace env fetch fuel) as (Hall & _).
    destruct (listOrgRepos env fetch fuel). cbn [fst] in *. constructor; eauto.
  - destruct (listOrgRepos_trace env fetch org_delay) as (Hall & _).
    destruct (listOrgRepos env fetch org_delay). cbn [fst] in *. constructor; eauto.
Qed.

End Requests.

(** ** The run as a whole *)

Section Process.

Variable env : environment.
Variable fetch : request -> completion response.
Variable Date_parse : string -> option Z.
Variable faults : fs_faults.

(** A successful aggregation returns what [summarize] computed. *)
Lemma fetchOrgMetrics_success (org_delay fuel : nat) (org : value) (repos : list value)
  (metrics : value) :
  fetchJson env fetch (org_url env) = Normal org ->
  snd (listOrgRepos env fetch fuel) = Some (Normal repos) ->
  summarize env Date_parse org repos = Normal metrics ->
  fetchOrgMetrics env fetch Date_parse org_delay fuel
  = Aggregation (request_of env (org_url env) :: fst (listOrgRepos env fetch fuel)) []
      (Some (Normal metrics)).
Proof.
  intros Horg Hrepos Hsum.
  rewrite (fetchOrgMetrics_fulfilled env fetch Date_parse org_delay fuel _ org repos
             (Promise_all_fulfilled env fetch org_delay fuel org repos Horg Hrepos)).
  rewrite Hsum. reflexivity.
Qed.

(** C3.  After a successful aggregation [publicRepos] is the organization's
    [public_repos], or the number of listed repositories when that field is
    missing (a zero is kept), [privateRepos] is [total_private_repos], or 0
    when missing, and [metrics.repos] of the payload is their sum. *)
Theorem repos_is_public_plus_private (org_delay fuel : nat) (fs : filesystem)
  (org : value) (repos : list value) (metrics : value) :
  fetchJson env fetch (org_url env) = Normal org ->
  snd (listOrgRepos env fetch fuel) = Some (Normal repos) ->
  summarize env Date_parse org repos = Normal metrics ->
  agg_outcome (fetchOrgMetrics env fetch Date_parse org_delay fuel) = Some (Normal metrics)
  /\ get metrics "publicRepos" = Normal (spec_publicRepos org repos)
  /\ get metrics "privateRepos" = Normal (spec_privateRepos org)
  /\ (nullish (field org "public_repos") = true ->
      get metrics "publicRepos" = Normal (VNum (Z.of_nat (length repos))))
  /\ (forall n : Z, field org "public_repos" = VNum n ->
      get metrics "publicRepos" = Normal (VNum n))
  /\ (nullish (field org "total_private_repos") = true ->
      get metrics "privateRepos" = Normal (VNum 0))
  /\ (forall payload : value,
        build_payload env metrics = Normal payload ->
        exists total : value,
          js_add (spec_publicRepos org repos) (spec_privateRepos org) = Normal total
          /\ get2 payload "metrics" "repos" = Normal total)
  /\ (forall p q : Z,
        spec_publicRepos org repos = VNum p -> spec_privateRepos org = VNum q ->
        exists payload : value,
          build_payload env metrics = Normal payload
          /\ get2 payload "metrics" "repos" = Normal (VNum (p + q))
          /\ (mkdir_fault faults = None -> write_fault faults = None ->
              files fs !! OUTPUT_DIR env = None ->
              files (run_disk (main env fetch Date_parse faults org_delay fuel fs))
                !! OUTPUT_FILE env = Some (JSON_stringify payload))).
Proof.
  intros Horg Hrepos Hsum.
  pose proof (fetchOrgMetrics_success org_delay fuel org repos metrics Horg Hrepos Hsum) as Hagg.
  destruct (summarize_inv env Date_parse org repos metrics Hsum)
    as (r & stars & forks & _ & _ & _ & Hm).
  split; [rewrite Hagg; reflexivity|].
  split; [rewrite Hm; reflexivity|].
  split; [rewrite Hm; reflexivity|].
  split.
  { intros Hnull. rewrite Hm. cbn. unfold spec_publicRepos.
    destruct (field org "public_repos"); try discriminate; reflexivity. }
  split.
  { intros n Hn. rewrite Hm. cbn. unfold spec_publicRepos. rewrite Hn. reflexivity. }
  split.
  { intros Hnull. rewrite Hm. cbn. unfold spec_privateRepos.
    destruct (field org "total_private_repos"); try discriminate; reflexivity. }
  split.
  - intros payload. rewrite Hm, build_payload_summary.
    destruct (js_add _ _) as [total|]; [|discriminate].
    cbn [mbind completion_bind]. intros [= <-]. exists total. split; reflexivity.
  - intros p q Hp Hq.
    assert (Hpay : build_payload env metrics
                   = Normal (payload_object env (VNum (p + q))
                               (js_coalesce (field org "followers") (VNum 0))
                               (js_coalesce (field org "public_members") (VNum 0))
                               stars forks
                               (if truthy r then field r "pushed_at" else VNull)
                               (if truthy r then field r "name" else VNull)
                               (if truthy r then field r "html_url" else VNull))).
    { rewrite Hm, build_payload_summary, Hp, Hq. reflexivity. }
    eexists. split; [exact Hpay|]. split; [reflexivity|].
    intros Hmk Hwr Hfile.
    destruct (main_writes env fetch Date_parse faults org_delay fuel fs metrics _
                ltac:(rewrite Hagg; reflexivity) Hpay Hmk Hwr Hfile) as (made & -> & _).
    cbn [run_disk files]. apply lookup_insert_eq.
Qed.

(** C7.  A run that completes exits with status 0, also when the metrics
    are degraded; an exception of [main], such as a fault of the file
    system, is written to the error stream and the process exits with
    status 1. *)
Theorem exit_status (org_delay fuel : nat) (fs : filesystem) :
  let r := main env fetch Date_parse faults org_delay fuel fs in
  let p := run_process env fetch Date_parse faults org_delay fuel fs in
  (run_outcome r = Some (Normal ()) ->
   is_Some (snd (listOrgRepos env fetch fuel)) ->
   exit_code p = Some 0 /\ console p = run_console r /\ disk p = run_disk r)
  /\ (forall e : js_error,
        run_outcome r = Some (Throw e) ->
        exit_code p = Some 1
        /\ console p = run_console r ++ [console_error "[ERROR] generate-stats failed:" e])
  /\ (forall e : js_error,
        agg_outcome (fetchOrgMetrics env fetch Date_parse org_delay fuel)
        = Some (Normal (degraded env e)) ->
        mkdir_fault faults = None -> write_fault faults = None ->
        files fs !! OUTPUT_DIR env = None ->
        run_outcome r = Some (Normal ())
        /\ (is_Some (snd (listOrgRepos env fetch fuel)) -> exit_code p = Some 0))
  /\ (forall (metrics payload : value) (e : js_error),
        agg_outcome (fetchOrgMetrics env fetch Date_parse org_delay fuel)
        = Some (Normal metrics) ->
        build_payload env metrics = Normal payload ->
        mkdir_fault faults = None -> write_fault faults = Some e ->
        run_outcome r = Some (Throw e) /\ exit_code p = Some 1
        /\ files (disk p) = files fs
        /\ In (console_error "[ERROR] generate-stats failed:" e) (console p)).
Proof.
  cbv zeta. unfold run_process.
  split; [|split; [|split]].
  - intros Hr [listing Hl]. rewrite Hr, Hl. auto.
  - intros e Hr. rewrite Hr. auto.
  - intros e Hagg Hmk Hwr Hfile.
    destruct (main_writes env fetch Date_parse faults org_delay fuel fs _ _ Hagg
                (build_payload_degraded env e) Hmk Hwr Hfile) as (made & -> & _).
    cbn [run_outcome]. split; [reflexivity|]. intros [listing ->]. reflexivity.
  - intros metrics payload e Hagg Hpay Hmk Hwr.
    rewrite (main_payload env fetch Date_parse faults org_delay fuel fs metrics payload Hagg Hpay).
    cbv zeta.
    destruct (write_payload_write_fault env faults fs payload e Hmk Hwr) as (fs' & -> & Hfiles).
    cbn. repeat split; [exact Hfiles|]. apply in_or_app. right. left. reflexivity.
Qed.

End Process.

(** ** The keys of the written document *)

Section Keys.

Variable env : environment.
Variable fetch : request -> completion response.
Variable Date_parse : string -> option Z.
Variable faults : fs_faults.



(** Sorting adds no rows. *)
Lemma sort_insert_In (cmp : value -> value -> completion (option Z)) (pivot : value)
  (sorted : list value) :
  forall sorted' : list value,
    sort_insert cmp pivot sorted = Normal sorted' ->
    forall y, In y sorted' -> y = pivot \/ In y sorted.
Proof.
  induction sorted as [|x sorted IH]; intros sorted' H y Hy.
  - injection H as <-. destruct Hy as [<-|[]]. left. reflexivity.
  - cbn [sort_insert] in H. destruct (cmp pivot x); [|discriminate].
    cbn [mbind completion_bind] in H. destruct (_ <? 0).
    + injection H as <-. destruct Hy as [<-|Hy]; [left; reflexivity|right; exact Hy].
    + destruct (sort_insert cmp pivot sorted) as [rest|]; [|discriminate].
      cbn in H. injection H as <-. destruct Hy as [<-|Hy]; [right; left; reflexivity|].
      destruct (IH rest eq_refl y Hy); [left; assumption|right; right; assumption].
Qed.

Lemma sort_into_In (cmp : value -> value -> completion (option Z)) (l : list value) :
  forall sorted sorted' : list value,
    sort_into cmp sorted l = Normal sorted' ->
    forall y, In y sorted' -> In y sorted \/ In y l.
Proof.
  induction l as [|x l IH]; intros sorted sorted' H y Hy.
  - injection H as <-. left. exact Hy.
  - cbn [sort_into] in H.
    destruct (sort_insert cmp x sorted) as [s1|] eqn:Hins; [|discriminate].
    cbn [mbind completion_bind] in H.
    destruct (IH s1 sorted' H y Hy) as [Hs1|Hl]; [|right; right; exact Hl].
    destruct (sort_insert_In cmp x sorted s1 Hins y Hs1) as [->|Hs];
      [right; left; reflexivity|left; exact Hs].
Qed.

(** The selected row, if any, is a listed row with a truthy [pushed_at]. *)
Lemma select_latest_pushed (repos : list value) (r : value) :
  select_latest Date_parse repos = Normal r ->
  r = VUndefined
  \/ (In r repos /\ truthy r = true /\ truthy (field r "pushed_at") = true).
Proof.
  unfold select_latest. intros H.
  destruct (js_filter _ repos) as [kept|] eqn:Hkept; [|discriminate].
  cbn [mbind completion_bind] in H.
  destruct (js_sort _ kept) as [sorted|] eqn:Hsort; [|discriminate].
  cbn [mbind completion_bind] in H. injection H as <-.
  destruct sorted as [|x sorted]; [left; reflexivity|right].
  destruct (sort_into_In _ kept [] (x :: sorted) Hsort x (or_introl eq_refl)) as [[]|Hx].
  destruct (js_filter_kept repos kept Hkept x Hx) as (Hin & p & Hp & Ht).
  cbn [first]. rewrite (get_field _ _ _ Hp).
  split; [exact Hin|]. split; [|exact Ht].
  destruct x; try discriminate Hp; cbn in Hp; injection Hp as <-;
    try discriminate Ht; reflexivity.
Qed.

(** What the aggregation returns is the degraded result or a summary. *)
Lemma fetchOrgMetrics_outcome (org_delay fuel : nat) (m : value) :
  agg_outcome (fetchOrgMetrics env fetch Date_parse org_delay fuel) = Some (Normal m) ->
  (exists e : js_error, m = degraded env e)
  \/ (exists (org : value) (repos : list value),
        summarize env Date_parse org repos = Normal m).
Proof.
  unfold fetchOrgMetrics.
  destruct (Promise_all env fetch org_delay fuel) as [log [[[org repos]|e]|]];
    cbn [mbind completion_bind fst snd]; [| |discriminate].
  - destruct (summarize env Date_parse org repos) as [metrics|e] eqn:Hsum;
      cbn [agg_outcome]; intros [= <-]; [right; eauto|left; eauto].
  - cbn [agg_outcome]. intros [= <-]. left. eauto.
Qed.






End Keys.

(** ** Malformed listing pages *)

Section Malformed.

Variable env : environment.
Variable fetch : request -> completion response.
Variable Date_parse : string -> option Z.





End Malformed.

(** ** What a run on well-formed answers returns *)

Section Figures.

Variable env : environment.
Variable fetch : request -> completion response.
Variable Date_parse : string -> option Z.
Variable faults : fs_faults.

Lemma get_defined (v : value) (k : string) : nullish v = false -> get v k = Normal (field v k).
Proof. unfold field. destruct v; try discriminate; reflexivity. Qed.

(** [summarize] returns as soon as its three loops do and the organization
    is not null. *)
Lemma summarize_returns (org : value) (repos : list value) (r stars forks : value) :
  nullish org = false ->
  select_latest Date_parse repos = Normal r ->
  js_reduce (add_count "stargazers_count") repos (VNum 0) = Normal stars ->
  js_reduce (add_count "forks_count") repos (VNum 0) = Normal forks ->
  summarize env Date_parse org repos
  = Normal (metrics_object env (spec_publicRepos org repos) (spec_privateRepos org)
              (js_coalesce (field org "followers") (VNum 0))
              (js_coalesce (field org "public_members") (VNum 0))
              stars forks (latest_object r)).
Proof.
  intros Horg Hsel Hstars Hforks. unfold summarize.
  rewrite Hsel, Hstars, Hforks, !(get_defined org _ Horg).
  cbn [mbind completion_bind]. rewrite coalesce_public, coalesce_private.
  unfold latest_object. destruct (truthy r) eqn:Hr; [|reflexivity].
  rewrite !(get_truthy r _ Hr). reflexivity.
Qed.

Lemma well_dated_plain (row : value) : well_dated Date_parse row -> plain_push row.
Proof.
  destruct row; try contradiction. cbn.
  destruct (lookup_prop "pushed_at" props) as [[]|]; auto.
Qed.

(** On rows with a plain [pushed_at] the comparator, the sort and the
    filter never throw. *)
Lemma by_latest_push_plain (a b : value) :
  plain_push a -> plain_push b -> exists c, by_latest_push Date_parse a b = Normal c.
Proof.
  unfold by_latest_push.
  destruct a as [| | | | | | |pa]; try contradiction.
  destruct b as [| | | | | | |pb]; try contradiction.
  cbn [plain_push get]. intros Ha Hb.
  destruct (lookup_prop "pushed_at" pa) as [[]|]; try contradiction;
    destruct (lookup_prop "pushed_at" pb) as [[]|]; try contradiction; cbn; eauto.
Qed.

Lemma sort_insert_plain (pivot : value) (sorted : list value) :
  plain_push pivot -> Forall plain_push sorted ->
  exists sorted' : list value,
    sort_insert (by_latest_push Date_parse) pivot sorted = Normal sorted'
    /\ Forall plain_push sorted'.
Proof.
  intros Hp. induction 1 as [|y rest Hy Hrest IH].
  - exists [pivot]. split; [reflexivity|]. constructor; [exact Hp|constructor].
  - cbn [sort_insert]. destruct (by_latest_push_plain pivot y Hp Hy) as [c ->].
    cbn [mbind completion_bind]. destruct (sort_order c <? 0).
    + eexists. split; [reflexivity|]. constructor; [exact Hp|]. constructor; assumption.
    + destruct IH as (rest' & -> & Hrest'). eexists. split; [reflexivity|].
      constructor; assumption.
Qed.

Lemma sort_into_plain (l : list value) :
  forall sorted : list value,
    Forall plain_push sorted -> Forall plain_push l ->
    exists sorted' : list value, sort_into (by_latest_push Date_parse) sorted l = Normal sorted'.
Proof.
  induction l as [|x l IH]; intros sorted Hs Hl; [eexists; reflexivity|].
  inversion Hl as [|? ? Hx Hl']; subst. cbn [sort_into].
  destruct (sort_insert_plain x sorted Hx Hs) as (s1 & -> & Hs1).
  cbn [mbind completion_bind]. apply IH; assumption.
Qed.

Lemma js_filter_plain (rows : list value) :
  Forall plain_push rows ->
  exists kept : list value,
    js_filter (fun repo => get repo "pushed_at") rows = Normal kept
    /\ Forall plain_push kept.
Proof.
  induction 1 as [|x rows Hx _ IH]; [exists []; split; [reflexivity|constructor]|].
  destruct IH as (kept & Hkept & Hall). cbn [js_filter].
  destruct x; try contradiction. cbn [get mbind completion_bind]. rewrite Hkept.
  cbn [mbind completion_bind].
  destruct (truthy _); eexists; (split; [reflexivity|]); [constructor; assumption|assumption].
Qed.

Lemma select_latest_plain (repos : list value) :
  Forall plain_push repos -> exists r : value, select_latest Date_parse repos = Normal r.
Proof.
  intros Hrows. unfold select_latest.
  destruct (js_filter_plain repos Hrows) as (kept & -> & Hkept).
  cbn [mbind completion_bind]. unfold js_sort.
  destruct (sort_into_plain kept [] ltac:(constructor) Hkept) as (sorted & ->).
  cbn. eauto.
Qed.

(** A count that is a number, null or absent is a number after [??]. *)
Lemma counted_number (k : string) (org : value) (fallback : Z) :
  well_counted k org -> exists n : Z, js_coalesce (field org k) (VNum fallback) = VNum n.
Proof.
  destruct org; try contradiction. unfold field. cbn [well_counted get].
  destruct (lookup_prop k props) as [[]|]; try contradiction; cbn; eauto.
Qed.

Lemma well_counted_object (k : string) (org : value) : well_counted k org -> nullish org = false.
Proof. destruct org; try contradiction; reflexivity. Qed.

(** On rows and an organization of the documented shape the aggregation
    returns a summary and [main] builds its payload. *)
Lemma summary_and_payload (org : value) (repos : list value) :
  Forall plain_push repos ->
  Forall (well_counted "stargazers_count") repos ->
  Forall (well_counted "forks_count") repos ->
  well_counted "public_repos" org -> well_counted "total_private_repos" org ->
  exists (r : value) (p q : Z),
    select_latest Date_parse repos = Normal r
    /\ summarize env Date_parse org repos
       = Normal (metrics_object env (VNum p) (VNum q)
                   (js_coalesce (field org "followers") (VNum 0))
                   (js_coalesce (field org "public_members") (VNum 0))
                   (VNum (sum_counts "stargazers_count" repos))
                   (VNum (sum_counts "forks_count" repos)) (latest_object r))
    /\ build_payload env
         (metrics_object env (VNum p) (VNum q)
            (js_coalesce (field org "followers") (VNum 0))
            (js_coalesce (field org "public_members") (VNum 0))
            (VNum (sum_counts "stargazers_count" repos))
            (VNum (sum_counts "forks_count" repos)) (latest_object r))
       = Normal (payload_object env (VNum (p + q))
                   (js_coalesce (field org "followers") (VNum 0))
                   (js_coalesce (field org "public_members") (VNum 0))
                   (VNum (sum_counts "stargazers_count" repos))
                   (VNum (sum_counts "forks_count" repos))
                   (if truthy r then field r "pushed_at" else VNull)
                   (if truthy r then field r "name" else VNull)
                   (if truthy r then field r "html_url" else VNull)).
Proof.
  intros Hpush Hstars Hforks Hpub Hpriv.
  destruct (select_latest_plain repos Hpush) as [r Hsel].
  destruct (counted_number "public_repos" org (Z.of_nat (length repos)) Hpub) as [p Hp].
  destruct (counted_number "total_private_repos" org 0 Hpriv) as [q Hq].
  rewrite coalesce_public in Hp. rewrite coalesce_private in Hq.
  pose proof (js_reduce_add_count "stargazers_count" repos Hstars 0) as Hs.
  pose proof (js_reduce_add_count "forks_count" repos Hforks 0) as Hf.
  rewrite Z.add_0_l in Hs, Hf.
  exists r, p, q. split; [exact Hsel|]. split.
  - rewrite (summarize_returns org repos r _ _ (well_counted_object _ org Hpub) Hsel Hs Hf).
    rewrite Hp, Hq. reflexivity.
  - rewrite build_payload_summary. reflexivity.
Qed.


(** C5.  On repository rows whose [pushed_at] is absent, null or a
    timestamp, the latest repository is chosen among the rows with a
    non-null [pushed_at]: it is a row that none is more recent than, the first
    such row of the list.  On such rows, with numeric or missing counts, the
    aggregation returns, [latestPushedRepository] carries the name, push time
    and URL of that row, and the payload repeats them.  If no repository has a
    non-null [pushed_at], [latestPushedRepository] is null, and
    [metrics.latestRepository], [metrics.latestCommit] and
    [sources.latestRepository] of the payload are null. *)
Theorem latest_pushed_repository (repos : list value) :
  (Date_parse EmptyString = None ->
   Forall (well_dated Date_parse) repos ->
   match List.filter has_push repos with
   | [] => select_latest Date_parse repos = Normal VUndefined
   | _ :: _ =>
       exists (before : list value) (r : value) (after : list value),
         List.filter has_push repos = before ++ r :: after
         /\ select_latest Date_parse repos = Normal r
         /\ (forall y, In y before -> push_time Date_parse y < push_time Date_parse r)
         /\ (forall y, In y after -> push_time Date_parse y <= push_time Date_parse r)
   end)
  /\ (forall org metrics : value,
        summarize env Date_parse org repos = Normal metrics ->
        exists r : value,
          select_latest Date_parse repos = Normal r
          /\ get metrics "latestPushedRepository"
             = Normal (if truthy r
                       then VObj [("name", field r "name"); ("pushedAt", field r "pushed_at");
                                  ("htmlUrl", field r "html_url")]
                       else VNull))
  /\ (List.filter has_push repos = [] ->
      forall org metrics : value,
        summarize env Date_parse org repos = Normal metrics ->
        get metrics "latestPushedRepository" = Normal VNull
        /\ forall payload : value,
             build_payload env metrics = Normal payload ->
             get2 payload "metrics" "latestRepository" = Normal VNull
             /\ get2 payload "metrics" "latestCommit" = Normal VNull
             /\ get2 payload "sources" "latestRepository" = Normal VNull)
  /\ (forall org : value,
        Forall (well_dated Date_parse) repos ->
        Forall (well_counted "stargazers_count") repos ->
        Forall (well_counted "forks_count") repos ->
        well_counted "public_repos" org -> well_counted "total_private_repos" org ->
        exists r metrics payload : value,
          select_latest Date_parse repos = Normal r
          /\ summarize env Date_parse org repos = Normal metrics
          /\ get metrics "latestPushedRepository"
             = Normal (if truthy r
                       then VObj [("name", field r "name"); ("pushedAt", field r "pushed_at");
                                  ("htmlUrl", field r "html_url")]
                       else VNull)
          /\ build_payload env metrics = Normal payload
          /\ get2 payload "metrics" "latestRepository"
             = Normal (if truthy r then field r "name" else VNull)
          /\ get2 payload "metrics" "latestCommit"
             = Normal (if truthy r then field r "pushed_at" else VNull)
          /\ get2 payload "sources" "latestRepository"
             = Normal (if truthy r then field r "html_url" else VNull)
          /\ forall org_delay fuel : nat,
               fetchJson env fetch (org_url env) = Normal org ->
               snd (listOrgRepos env fetch fuel) = Some (Normal repos) ->
               agg_outcome (fetchOrgMetrics env fetch Date_parse org_delay fuel)
               = Some (Normal metrics)).
Proof.
  split; [|split; [|split]].
  - intros Hempty Hrows.
    pose proof (filter_datable Date_parse repos Hrows) as Hdat.
    unfold select_latest. rewrite (js_filter_well_dated Date_parse Hempty repos Hrows).
    cbn [mbind completion_bind].
    destruct (List.filter has_push repos) as [|y kept]; [reflexivity|].
    inversion Hdat as [|? ? Hy Hkept]; subst.
    unfold js_sort. cbn [sort_into sort_insert mbind completion_bind].
    destruct (sort_into_dated Date_parse kept y []) as (rest & Hsort & _);
      [constructor; [exact Hy|constructor]|exact Hkept|].
    rewrite Hsort. cbn [mbind completion_bind first].
    destruct (latest_of_spec (push_time Date_parse) kept y) as (before & after & Heq & Hb & Ha).
    exists before, (latest_of (push_time Date_parse) y kept), after. auto.
  - intros org metrics Hsum.
    destruct (summarize_inv env Date_parse org repos metrics Hsum)
      as (r & stars & forks & Hsel & _ & _ & ->).
    exists r. split; [exact Hsel|reflexivity].
  - intros Hnone org metrics Hsum.
    destruct (summarize_inv env Date_parse org repos metrics Hsum)
      as (r & stars & forks & Hsel & _ & _ & ->).
    rewrite (select_latest_none Date_parse repos r Hnone Hsel).
    split; [reflexivity|].
    intros payload. change (latest_object VUndefined) with VNull.
    change VNull with (latest_object VUndefined) at 1.
    rewrite build_payload_summary.
    destruct (js_add _ _) as [total|]; [|discriminate].
    cbn [mbind completion_bind truthy]. intros [= <-]. repeat split.
  - intros org Hrows Hstars Hforks Hpub Hpriv.
    assert (Hplain : Forall plain_push repos)
      by (eapply Forall_impl; [exact Hrows|exact well_dated_plain]).
    destruct (summary_and_payload org repos Hplain Hstars Hforks Hpub Hpriv)
      as (r & p & q & Hsel & Hsum & Hpay).
    eexists r, _, _. split; [exact Hsel|]. split; [exact Hsum|].
    split; [reflexivity|]. split; [exact Hpay|].
    split; [reflexivity|]. split; [reflexivity|]. split; [reflexivity|].
    intros org_delay fuel Horg Hlist.
    rewrite (fetchOrgMetrics_success env fetch Date_parse org_delay fuel org repos _
               Horg Hlist Hsum). reflexivity.
Qed.

(** C6.  On repository rows whose counts are numbers, null or absent,
    [totalStars] is the sum of [stargazers_count] over all rows and
    [totalForks] the sum of [forks_count] over all rows, a missing count
    being 0; on such rows the aggregation returns, and its result and the
    payload carry these two sums. *)
Theorem totals_are_sums (repos : list value) :
  Forall (well_counted "stargazers_count") repos ->
  Forall (well_counted "forks_count") repos ->
  js_reduce (add_count "stargazers_count") repos (VNum 0)
  = Normal (VNum (sum_counts "stargazers_count" repos))
  /\ js_reduce (add_count "forks_count") repos (VNum 0)
     = Normal (VNum (sum_counts "forks_count" repos))
  /\ (forall org metrics : value,
        summarize env Date_parse org repos = Normal metrics ->
        get metrics "totalStars" = Normal (VNum (sum_counts "stargazers_count" repos))
        /\ get metrics "totalForks" = Normal (VNum (sum_counts "forks_count" repos)))
  /\ (forall org : value,
        Forall plain_push repos ->
        well_counted "public_repos" org -> well_counted "total_private_repos" org ->
        exists metrics payload : value,
          summarize env Date_parse org repos = Normal metrics
          /\ get metrics "totalStars" = Normal (VNum (sum_counts "stargazers_count" repos))
          /\ get metrics "totalForks" = Normal (VNum (sum_counts "forks_count" repos))
          /\ build_payload env metrics = Normal payload
          /\ get2 payload "metrics" "totalStars"
             = Normal (VNum (sum_counts "stargazers_count" repos))
          /\ get2 payload "metrics" "totalForks"
             = Normal (VNum (sum_counts "forks_count" repos))
          /\ forall org_delay fuel : nat,
               fetchJson env fetch (org_url env) = Normal org ->
               snd (listOrgRepos env fetch fuel) = Some (Normal repos) ->
               agg_outcome (fetchOrgMetrics env fetch Date_parse org_delay fuel)
               = Some (Normal metrics)).
Proof.
  intros Hstars Hforks.
  pose proof (js_reduce_add_count "stargazers_count" repos Hstars 0) as Hs.
  pose proof (js_reduce_add_count "forks_count" repos Hforks 0) as Hf.
  rewrite Z.add_0_l in Hs, Hf.
  split; [exact Hs|]. split; [exact Hf|]. split.
  - intros org metrics Hsum.
    destruct (summarize_inv env Date_parse org repos metrics Hsum)
      as (r & stars & forks & _ & Hstars' & Hforks' & ->).
    rewrite Hs in Hstars'. rewrite Hf in Hforks'.
    injection Hstars' as <-. injection Hforks' as <-.
    split; reflexivity.
  - intros org Hplain Hpub Hpriv.
    destruct (summary_and_payload org repos Hplain Hstars Hforks Hpub Hpriv)
      as (r & p & q & Hsel & Hsum & Hpay).
    eexists _, _. split; [exact Hsum|].
    split; [reflexivity|]. split; [reflexivity|]. split; [exact Hpay|].
    split; [reflexivity|]. split; [reflexivity|].
    intros org_delay fuel Horg Hlist.
    rewrite (fetchOrgMetrics_success env fetch Date_parse org_delay fuel org repos _
               Horg Hlist Hsum). reflexivity.
Qed.

End Figures.

(** ** What [fetch] receives, and the document on disk *)

Section Document.

Variable env : environment.
Variable fetch : request -> completion response.
Variable Date_parse : string -> option Z.
Variable faults : fs_faults.

(** C8.  [fetchJson] calls [fetch] once, for the address it was given, and
    every request that [fetch] receives in a run, from the aggregation or
    from the listing, carries no [Authorization] header when the token
    variable is unset or empty, and exactly one, [Bearer <token>], when a
    token is set. *)
Theorem authorization_header (org_delay fuel : nat) :
  (forall u : string,
     exists r : request,
       fst (fetchJson_call env fetch u) = [r]
       /\ url r = u
       /\ fetchJson env fetch u
          = (resp ← fetch r;
             if negb (ok resp) then
               t ← text resp;
               Throw (Error ("Failed request " +:+ u +:+ " -> " +:+ pretty (status resp)
                               +:+ ": " +:+ t))
             else json resp)
       /\ authorization r
          = match env_GITHUB_TOKEN env with
            | Some token => if String.eqb token EmptyString then [] else ["Bearer " +:+ token]
            | None => []
            end)
  /\ (forall r : request,
        In r (agg_requests (fetchOrgMetrics env fetch Date_parse org_delay fuel))
        \/ In r (fst (listOrgRepos env fetch fuel)) ->
        authorization r
        = match env_GITHUB_TOKEN env with
          | Some token => if String.eqb token EmptyString then [] else ["Bearer " +:+ token]
          | None => []
          end).
Proof.
  split.
  - intros u. exists (request_of env u).
    split; [reflexivity|]. split; [reflexivity|]. split; [reflexivity|].
    apply authorization_request_of.
  - intros r Hr.
    assert (Hu : exists u, r = request_of env u).
    { destruct Hr as [Hr|Hr].
      - rewrite agg_requests_Promise_all in Hr.
        pose proof (Promise_all_requests env fetch org_delay fuel) as Hall.
        rewrite Forall_forall in Hall. apply Hall. apply list_elem_of_In. exact Hr.
      - destruct (listOrgRepos_trace env fetch fuel) as (Hall & _).
        rewrite Forall_forall in Hall. apply Hall. apply list_elem_of_In. exact Hr. }
    destruct Hu as [u ->]. apply authorization_request_of.
Qed.

(** The top level of the document: one member a line, two spaces in. *)
Lemma JSON_stringify_payload (a b c d e f g h : value) :
  JSON_stringify (payload_object env a b c d e f g h)
  = "{" +:+ newline +:+ "  "
      +:+ join ("," +:+ newline +:+ "  ")
            [quote "generatedAt" +:+ ": " +:+ quote (clock env);
             quote "systems" +:+ ": " +:+ stringify "  " systems;
             quote "metrics" +:+ ": "
               +:+ stringify "  " (field (payload_object env a b c d e f g h) "metrics");
             quote "sources" +:+ ": "
               +:+ stringify "  " (field (payload_object env a b c d e f g h) "sources")]
      +:+ newline +:+ "}".
Proof. reflexivity. Qed.

(** C9 as amended.  The output file has a fixed place below the parent of
    the script's own directory, whatever the working directory.  Of a run
    whose aggregation returned: if the payload is built and the file system
    refuses nothing, the run leaves the payload there as JSON indented by two
    spaces, in a directory that exists afterwards, touches no other file, and
    the document has exactly the four top-level keys; if the write is
    refused, or the payload cannot be built, no file changes and the process
    exits with status 1. *)
Theorem payload_written_beside_script (org_delay fuel : nat) (fs : filesystem)
  (metrics : value) :
  agg_outcome (fetchOrgMetrics env fetch Date_parse org_delay fuel) = Some (Normal metrics) ->
  let r := main env fetch Date_parse faults org_delay fuel fs in
  let p := run_process env fetch Date_parse faults org_delay fuel fs in
  OUTPUT_FILE env = removelast (walk [] (dirname env)) ++ ["profile"; "stats.json"]
  /\ (forall env' : environment, dirname env' = dirname env -> OUTPUT_FILE env' = OUTPUT_FILE env)
  /\ (forall payload : value,
        build_payload env metrics = Normal payload ->
        mkdir_fault faults = None -> write_fault faults = None ->
        files fs !! OUTPUT_DIR env = None ->
        run_outcome r = Some (Normal ())
        /\ files (run_disk r) !! OUTPUT_FILE env = Some (JSON_stringify payload)
        /\ OUTPUT_DIR env ∈ dirs (run_disk r)
        /\ (forall q : path, q <> OUTPUT_FILE env -> files (run_disk r) !! q = files fs !! q)
        /\ keys payload = ["generatedAt"; "systems"; "metrics"; "sources"]
        /\ serialized_keys payload = ["generatedAt"; "systems"; "metrics"; "sources"]
        /\ JSON_stringify payload
           = "{" +:+ newline +:+ "  "
               +:+ join ("," +:+ newline +:+ "  ")
                     [quote "generatedAt" +:+ ": " +:+ quote (clock env);
                      quote "systems" +:+ ": " +:+ stringify "  " systems;
                      quote "metrics" +:+ ": " +:+ stringify "  " (field payload "metrics");
                      quote "sources" +:+ ": " +:+ stringify "  " (field payload "sources")]
               +:+ newline +:+ "}")
  /\ (forall (payload : value) (e : js_error),
        build_payload env metrics = Normal payload ->
        mkdir_fault faults = None -> write_fault faults = Some e ->
        run_outcome r = Some (Throw e)
        /\ files (disk p) = files fs
        /\ exit_code p = Some 1)
  /\ (forall e : js_error,
        build_payload env metrics = Throw e ->
        run_outcome r = Some (Throw e)
        /\ disk p = fs
        /\ exit_code p = Some 1).
Proof.
  intros Hagg. cbv zeta.
  split; [rewrite OUTPUT_FILE_in_dir, OUTPUT_DIR_dirname, <- app_assoc; reflexivity|].
  split.
  { intros env' Henv. rewrite !OUTPUT_FILE_in_dir, !OUTPUT_DIR_dirname, Henv. reflexivity. }
  split; [|split].
  - intros payload Hpay Hmk Hwr Hfile.
    destruct (main_writes env fetch Date_parse faults org_delay fuel fs metrics payload
                Hagg Hpay Hmk Hwr Hfile) as (made & -> & Hdir & _).
    cbn [run_outcome run_disk files dirs].
    split; [reflexivity|].
    split; [apply lookup_insert_eq|].
    split; [exact Hdir|].
    split; [intros q Hq; apply lookup_insert_ne; congruence|].
    destruct (build_payload_inv env metrics payload Hpay)
      as (a & b & c & d & e & f & g & h & ->).
    split; [reflexivity|]. split; [reflexivity|]. apply JSON_stringify_payload.
  - intros payload e Hpay Hmk Hwr. unfold run_process.
    rewrite (main_payload env fetch Date_parse faults org_delay fuel fs metrics payload Hagg Hpay).
    cbv zeta.
    destruct (write_payload_write_fault env faults fs payload e Hmk Hwr) as (fs' & -> & Hfiles).
    cbn. repeat split. exact Hfiles.
  - intros e Hpay. unfold run_process, main. rewrite Hagg, Hpay. cbn. repeat split.
Qed.


End Document.

(** * Concrete runs *)

(** ** Runs on which the stated properties hold *)

Lemma fetchOrgMetrics_degrades_on_failure_witness :
  exists (u : string) (e : js_error) (m : value),
    In (request_of Mock.env u)
       (agg_requests (fetchOrgMetrics Mock.env Mock.org_down Mock.Date_parse 0 5))
    /\ fetchJson Mock.env Mock.org_down u = Throw e
    /\ agg_outcome (fetchOrgMetrics Mock.env Mock.org_down Mock.Date_parse 0 5) = Some (Normal m)
    /\ zeroed m (message e)
    /\ agg_console (fetchOrgMetrics Mock.env Mock.org_down Mock.Date_parse 0 5)
       = [console_warn ("[WARN] Unable to fetch GitHub metrics: " +:+ message e)].
Proof.
  apply (proj1 (proj2 (fetchOrgMetrics_degrades_on_failure
                         Mock.env Mock.org_down Mock.Date_parse 0 5))
           (org_url Mock.env)
           (Error "Failed request https://api.github.com/orgs/abstract-data -> 404: Not Found")).
  - left. reflexivity.
  - vm_compute. reflexivity.
Defined.

Lemma repos_is_public_plus_private_witness :
  fetchJson Mock.env Mock.listed (org_url Mock.env) = Normal Mock.org_body
  /\ snd (listOrgRepos Mock.env Mock.listed 5) = Some (Normal Mock.dated_rows)
  /\ summarize Mock.env Mock.Date_parse Mock.org_body Mock.dated_rows
     = Normal Mock.listed_metrics
  /\ get Mock.listed_metrics "publicRepos" = Normal (VNum 3)
  /\ exists payload : value,
       build_payload Mock.env Mock.listed_metrics = Normal payload
       /\ get2 payload "metrics" "repos" = Normal (VNum (3 + 2)).
Proof.
  assert (H1 : fetchJson Mock.env Mock.listed (org_url Mock.env) = Normal Mock.org_body)
    by (vm_compute; reflexivity).
  assert (H2 : snd (listOrgRepos Mock.env Mock.listed 5) = Some (Normal Mock.dated_rows))
    by (vm_compute; reflexivity).
  assert (H3 : summarize Mock.env Mock.Date_parse Mock.org_body Mock.dated_rows
               = Normal Mock.listed_metrics) by (vm_compute; reflexivity).
  destruct (repos_is_public_plus_private Mock.env Mock.listed Mock.Date_parse Mock.no_faults
              0 5 Mock.empty_disk Mock.org_body Mock.dated_rows Mock.listed_metrics H1 H2 H3)
    as (_ & Hpub & _ & _ & _ & _ & _ & Hsum).
  destruct (Hsum 3 2 eq_refl eq_refl) as (payload & Hpay & Hrepos & _).
  repeat split; try assumption. exists payload. split; assumption.
Defined.

Lemma exit_status_witness :
  run_outcome (main Mock.env Mock.org_down Mock.Date_parse Mock.no_faults 0 5 Mock.empty_disk)
  = Some (Normal ())
  /\ exit_code (run_process Mock.env Mock.org_down Mock.Date_parse Mock.no_faults 0 5
                  Mock.empty_disk) = Some 0.
Proof.
  destruct (proj1 (proj2 (proj2 (exit_status Mock.env Mock.org_down Mock.Date_parse
                                   Mock.no_faults 0 5 Mock.empty_disk)))
              (Error "Failed request https://api.github.com/orgs/abstract-data -> 404: Not Found")
              eq_refl eq_refl eq_refl eq_refl) as [Hrun Hexit].
  split; [exact Hrun|]. apply Hexit. vm_compute. eauto.
Defined.


(** ** Runs on which a sentence of the design document fails *)


(** C9.  The output path is not a path relative to the working directory:
    two installations run from the same directory write to different files.
    And a run whose write is refused writes no document. *)
Lemma output_path_ignores_working_directory :
  ~ (exists rel : path,
       forall e : environment, OUTPUT_FILE e = path_resolve (cwd e) [Rel rel])
  /\ files (disk (run_process Mock.env Mock.listed Mock.Date_parse Mock.write_refused 0 5
                    Mock.empty_disk)) = ∅
  /\ exit_code (run_process Mock.env Mock.listed Mock.Date_parse Mock.write_refused 0 5
                  Mock.empty_disk) = Some 1.
Proof.
  split.
  - intros [rel H].
    pose proof (H Mock.env) as H1. pose proof (H Mock.env_elsewhere) as H2.
    change (cwd Mock.env_elsewhere) with (cwd Mock.env) in H2.
    rewrite <- H1 in H2. vm_compute in H2. discriminate H2.
  - split; vm_compute; reflexivity.
Qed.

(** ** A response outside the documented API *)

(** The only repository listed has a push time but no [name] and no
    [html_url]: the serializer leaves the two undefined members out, and the
    document has six keys under [metrics] and one under [sources]. *)
Lemma nameless_repository_drops_keys :
  files (disk (run_process Mock.env Mock.nameless Mock.Date_parse Mock.no_faults 0 5
                 Mock.empty_disk)) !! OUTPUT_FILE Mock.env
  = Some (JSON_stringify Mock.nameless_payload)
  /\ JSON_stringify Mock.nameless_payload = Mock.nameless_file
  /\ serialized_keys (field Mock.nameless_payload "metrics")
     = ["repos"; "followers"; "members"; "totalStars"; "totalForks"; "latestCommit"]
  /\ serialized_keys (field Mock.nameless_payload "sources") = ["github"].
Proof. repeat split; vm_compute; reflexivity. Qed.

(** * Further properties of the script *)

(** ** The listing, read backwards *)

Section Listing.

Variable env : environment.
Variable fetch : request -> completion response.
Variable Date_parse : string -> option Z.

(** The loop asks for consecutive pages, at most one per unit of fuel. *)
Lemma listLoop_log (fuel : nat) :
  forall (repos : list value) (page : Z) (log : list request),
  exists n : nat,
    (n <= fuel)%nat
    /\ fst (listLoop env fetch fuel repos page log) = log ++ page_requests env page n
    /\ (snd (listLoop env fetch fuel repos page log) = None -> n = fuel).
Proof.
  induction fuel as [|fuel IH]; intros repos page log.
  - exists 0%nat. cbn. rewrite app_nil_r. auto.
  - rewrite listLoop_S.
    assert (Hone : forall r : completion (list value),
               exists n : nat,
                 (n <= S fuel)%nat
                 /\ fst (log ++ [request_of env (repos_url env page)], Some r)
                    = log ++ page_requests env page n
                 /\ (snd (log ++ [request_of env (repos_url env page)], Some r) = None
                     -> n = S fuel)).
    { intros r. exists 1%nat. rewrite page_requests_S. cbn. split; [lia|].
      split; [reflexivity|discriminate]. }
    destruct (fetchJson env fetch (repos_url env page)) as [data|e]; [|apply Hone].
    match goal with |- context [if ?c then _ else _] => destruct c end; [apply Hone|].
    match goal with |- context [if ?c then _ else _] => destruct c end; [apply Hone|].
    destruct (IH (repos ++ array_elements data) (page + 1)
                 (log ++ [request_of env (repos_url env page)])) as (n & Hn & Hlog & Hnone).
    exists (S n). split; [lia|]. split.
    + rewrite Hlog, page_requests_S, <- app_assoc. reflexivity.
    + intros H. rewrite (Hnone H). reflexivity.
Qed.

(** What the loop returns is made of whole pages, in order. *)
Lemma listLoop_returns (fuel : nat) :
  forall (repos : list value) (page : Z) (log : list request) (rows : list value),
    snd (listLoop env fetch fuel repos page log) = Some (Normal rows) ->
    exists (full : list (list value)) (last : value),
      (forall (i : nat) (p : list value), full !! i = Some p ->
         fetchJson env fetch (repos_url env (page + Z.of_nat i)) = Normal (VArr p)
         /\ (100 <= length p)%nat)
      /\ fetchJson env fetch (repos_url env (page + Z.of_nat (length full))) = Normal last
      /\ short_page last = true
      /\ (length full < fuel)%nat
      /\ rows = repos ++ concat full ++ array_elements last.
Proof.
  induction fuel as [|fuel IH]; intros repos page log rows H; [discriminate|].
  rewrite listLoop_S in H.
  destruct (fetchJson env fetch (repos_url env page)) as [data|e] eqn:Hpage; [|discriminate].
  destruct (negb (isArray data) || (Z.of_nat (length (array_elements data)) =? 0)) eqn:Hstop.
  - cbn in H. injection H as <-. exists [], data.
    split; [intros i p Hp; discriminate|].
    cbn [length]. rewrite Z.add_0_r. split; [exact Hpage|].
    split.
    { unfold short_page. apply orb_true_iff in Hstop. destruct Hstop as [->|Hz]; [reflexivity|].
      apply Z.eqb_eq in Hz. rewrite Hz. apply orb_true_r. }
    split; [lia|].
    cbn [concat app]. apply orb_true_iff in Hstop. destruct Hstop as [Hna|Hz].
    + destruct data; try discriminate; cbn; rewrite app_nil_r; reflexivity.
    + destruct data; cbn; rewrite ?app_nil_r; try reflexivity.
      destruct elems; [rewrite app_nil_r; reflexivity|]. cbn in Hz. discriminate.
  - apply orb_false_iff in Hstop. destruct Hstop as [Harr Hnz].
    destruct data as [| | | | | |elems|]; try discriminate. cbn [array_elements] in *.
    destruct (Z.of_nat (length elems) <? perPage) eqn:Hshort.
    + cbn in H. injection H as <-. exists [], (VArr elems).
      split; [intros i p Hp; discriminate|].
      cbn [length]. rewrite Z.add_0_r. split; [exact Hpage|].
      split; [unfold short_page; cbn; rewrite Hshort; reflexivity|].
      split; [lia|reflexivity].
    + destruct (IH (repos ++ elems) (page + 1) _ rows H)
        as (full & last & Hfull & Hlast & Hlastshort & Hfuel & ->).
      exists (elems :: full), last. split.
      { intros [|i] p Hp.
        - injection Hp as <-. rewrite Z.add_0_r. split; [exact Hpage|].
          apply Z.ltb_ge in Hshort. unfold perPage in Hshort. lia.
        - replace (page + Z.of_nat (S i)) with (page + 1 + Z.of_nat i) by lia.
          apply Hfull. exact Hp. }
      split.
      { replace (page + Z.of_nat (length (elems :: full)))
          with (page + 1 + Z.of_nat (length full)) by (cbn [length]; lia). exact Hlast. }
      split; [exact Hlastshort|]. split; [cbn [length]; lia|].
      cbn [concat]. rewrite <- !app_assoc. reflexivity.
Qed.

(** X1.  Whenever the listing returns, it has asked for the pages 1 to n
    in order and nothing else, every page before the last was an array of at
    least 100 rows, the last page was shorter or not an array, and the
    result is the rows of these pages, in order. *)
Theorem listing_returns_whole_pages (fuel : nat) (rows : list value) :
  snd (listOrgRepos env fetch fuel) = Some (Normal rows) ->
  exists (full : list (list value)) (last : value),
    (forall (i : nat) (p : list value), full !! i = Some p ->
       fetchJson env fetch (repos_url env (1 + Z.of_nat i)) = Normal (VArr p)
       /\ (100 <= length p)%nat)
    /\ fetchJson env fetch (repos_url env (1 + Z.of_nat (length full))) = Normal last
    /\ short_page last = true
    /\ rows = concat full ++ array_elements last
    /\ fst (listOrgRepos env fetch fuel) = page_requests env 1 (S (length full)).
Proof.
  intros H. unfold listOrgRepos in *.
  destruct (listLoop_returns fuel [] 1 [] rows H)
    as (full & last & Hfull & Hlast & Hshort & Hfuel & Hrows).
  exists full, last.
  split; [exact Hfull|]. split; [exact Hlast|]. split; [exact Hshort|]. split; [exact Hrows|].
  rewrite (listLoop_pages env fetch full fuel [] 1 [] (Normal last) Hfull Hlast Hshort Hfuel).
  reflexivity.
Qed.

(** On an API whose pages are all full the loop goes on. *)
Lemma listLoop_endless (fuel : nat) :
  forall (repos : list value) (page : Z) (log : list request),
    (forall k : Z, page <= k ->
       exists p, fetchJson env fetch (repos_url env k) = Normal (VArr p)
                 /\ (100 <= length p)%nat) ->
    listLoop env fetch fuel repos page log = (log ++ page_requests env page fuel, None).
Proof.
  induction fuel as [|fuel IH]; intros repos page log Hfull.
  - cbn. rewrite app_nil_r. reflexivity.
  - destruct (Hfull page ltac:(lia)) as (p & Hp & Hlen).
    rewrite listLoop_S. rewrite Hp. cbn [isArray negb orb array_elements].
    replace (Z.of_nat (length p) =? 0) with false by (symmetry; apply Z.eqb_neq; lia).
    unfold perPage at 1.
    replace (Z.of_nat (length p) <? 100) with false by (symmetry; apply Z.ltb_ge; lia).
    rewrite IH by (intros k Hk; apply Hfull; lia).
    rewrite page_requests_S, <- app_assoc. reflexivity.
Qed.

(** X2.  On an API that answers every page request with a full page the
    listing never returns, however long it runs, and asks for one page after
    the other; the aggregation then returns only if the organization request
    fails, with the degraded result. *)
Theorem endless_listing (org_delay fuel : nat) :
  (forall k : Z, 1 <= k ->
     exists p, fetchJson env fetch (repos_url env k) = Normal (VArr p)
               /\ (100 <= length p)%nat) ->
  listOrgRepos env fetch fuel = (page_requests env 1 fuel, None)
  /\ (forall org : value,
        fetchJson env fetch (org_url env) = Normal org ->
        agg_outcome (fetchOrgMetrics env fetch Date_parse org_delay fuel) = None)
  /\ (forall e : js_error,
        fetchJson env fetch (org_url env) = Throw e ->
        agg_outcome (fetchOrgMetrics env fetch Date_parse org_delay fuel)
        = Some (Normal (degraded env e))).
Proof.
  intros Hfull.
  assert (Hlist : forall n, listOrgRepos env fetch n = (page_requests env 1 n, None)).
  { intros n. unfold listOrgRepos. rewrite (listLoop_endless n [] 1 [] Hfull). reflexivity. }
  split; [apply Hlist|]. split.
  - intros org Horg. unfold fetchOrgMetrics. rewrite Promise_all_eq, Horg, Hlist. reflexivity.
  - intros e Horg. unfold fetchOrgMetrics. rewrite Promise_all_eq, Horg, Hlist. reflexivity.
Qed.

End Listing.

(** ** The result of the aggregation *)

Section Results.

Variable env : environment.
Variable fetch : request -> completion response.
Variable Date_parse : string -> option Z.
Variable faults : fs_faults.

(** X3.  Whatever the aggregation returns names the organization and has
    the same eight keys; the degraded result has [error] as a ninth key, and
    it is the result with an [error] exactly when a warning was logged, the
    warning and the [error] carrying the same message. *)
Theorem result_shape (org_delay fuel : nat) (m : value) :
  agg_outcome (fetchOrgMetrics env fetch Date_parse org_delay fuel) = Some (Normal m) ->
  get m "organization" = Normal (VStr (GITHUB_ORG env))
  /\ ((keys m = ["organization"; "publicRepos"; "privateRepos"; "followers"; "members";
                 "totalStars"; "totalForks"; "latestPushedRepository"]
       /\ agg_console (fetchOrgMetrics env fetch Date_parse org_delay fuel) = [])
      \/ (exists e : js_error,
            keys m = ["organization"; "publicRepos"; "privateRepos"; "followers"; "members";
                      "totalStars"; "totalForks"; "latestPushedRepository"; "error"]
            /\ get m "error" = Normal (VStr (message e))
            /\ agg_console (fetchOrgMetrics env fetch Date_parse org_delay fuel)
               = [console_warn ("[WARN] Unable to fetch GitHub metrics: " +:+ message e)])).
Proof.
  unfold fetchOrgMetrics.
  destruct (Promise_all env fetch org_delay fuel) as [log [[[org repos]|e]|]];
    cbn [mbind completion_bind fst snd]; [| |discriminate].
  - destruct (summarize env Date_parse org repos) as [metrics|e] eqn:Hsum;
      cbn [agg_outcome agg_console]; intros [= <-].
    + destruct (summarize_inv env Date_parse org repos metrics Hsum)
        as (r & stars & forks & _ & _ & _ & ->).
      split; [reflexivity|]. left. split; reflexivity.
    + split; [reflexivity|]. right. exists e. repeat split.
  - cbn [agg_outcome agg_console]. intros [= <-].
    split; [reflexivity|]. right. exists e. repeat split.
Qed.

(** A null organization body cannot be read. *)
Lemma summarize_null_org (repos : list value) :
  exists e : js_error, summarize env Date_parse VNull repos = Throw e.
Proof.
  unfold summarize.
  destruct (select_latest Date_parse repos); [|eauto].
  cbn [mbind completion_bind].
  destruct (js_reduce (add_count "stargazers_count") repos (VNum 0)); [|eauto].
  cbn [mbind completion_bind].
  destruct (js_reduce (add_count "forks_count") repos (VNum 0)); [|eauto].
  cbn. eauto.
Qed.

(** X4.  An organization body that is [null] is recovered like a failed
    request: once the listing has ended the aggregation returns the degraded
    result and logs one warning. *)
Theorem null_organization_degrades (org_delay fuel : nat) (repos : list value) :
  fetchJson env fetch (org_url env) = Normal VNull ->
  snd (listOrgRepos env fetch fuel) = Some (Normal repos) ->
  exists e : js_error,
    agg_outcome (fetchOrgMetrics env fetch Date_parse org_delay fuel)
    = Some (Normal (degraded env e))
    /\ agg_console (fetchOrgMetrics env fetch Date_parse org_delay fuel)
       = [console_warn ("[WARN] Unable to fetch GitHub metrics: " +:+ message e)].
Proof.
  intros Horg Hrepos. destruct (summarize_null_org repos) as [e He]. exists e.
  rewrite (fetchOrgMetrics_fulfilled env fetch Date_parse org_delay fuel _ VNull repos
             (Promise_all_fulfilled env fetch org_delay fuel VNull repos Horg Hrepos)).
  rewrite He. split; reflexivity.
Qed.

(** X5.  [followers] and [members] are the organization's [followers] and
    [public_members], or 0 when the field is missing or null, and reach the
    payload unchanged; an organization body without any of the four fields
    gives the number of listed repositories and three zeros. *)
Theorem followers_and_members (org : value) (repos : list value) (metrics payload : value) :
  summarize env Date_parse org repos = Normal metrics ->
  build_payload env metrics = Normal payload ->
  get2 payload "metrics" "followers"
  = Normal (if nullish (field org "followers") then VNum 0 else field org "followers")
  /\ get2 payload "metrics" "members"
     = Normal (if nullish (field org "public_members") then VNum 0
               else field org "public_members")
  /\ (nullish (field org "public_repos") = true ->
      nullish (field org "total_private_repos") = true ->
      get2 payload "metrics" "repos" = Normal (VNum (Z.of_nat (length repos)))).
Proof.
  intros Hsum Hpay.
  destruct (summarize_inv env Date_parse org repos metrics Hsum)
    as (r & stars & forks & _ & _ & _ & ->).
  rewrite build_payload_summary in Hpay.
  destruct (js_add _ _) as [total|] eqn:Htotal; [|discriminate].
  cbn [mbind completion_bind] in Hpay. injection Hpay as <-.
  split; [reflexivity|]. split; [reflexivity|].
  intros Hpub Hpriv. unfold spec_publicRepos, spec_privateRepos in Htotal.
  destruct (field org "public_repos"); try discriminate Hpub;
    destruct (field org "total_private_repos"); try discriminate Hpriv;
    cbn in Htotal; injection Htotal as <-; cbn; rewrite Z.add_0_r; reflexivity.
Qed.

(** X6.  The sum of line 102 is outside the [try] block: when the
    organization's [public_repos] is an object with a [toString] entry the
    addition throws, nothing is written, the error goes to the error stream
    and the process exits with status 1. *)
Theorem unreadable_count_is_fatal (org_delay fuel : nat) (fs : filesystem)
  (org : value) (repos : list value) (metrics : value) (props : list (string * value)) :
  fetchJson env fetch (org_url env) = Normal org ->
  snd (listOrgRepos env fetch fuel) = Some (Normal repos) ->
  summarize env Date_parse org repos = Normal metrics ->
  field org "public_repos" = VObj props ->
  has_own "toString" props = true ->
  run_process env fetch Date_parse faults org_delay fuel fs
  = Process [console_error "[ERROR] generate-stats failed:"
               (TypeError "Cannot convert object to primitive value")]
      fs (Some 1).
Proof.
  intros Horg Hrepos Hsum Hpub Hown.
  pose proof (fetchOrgMetrics_success env fetch Date_parse org_delay fuel org repos metrics
                Horg Hrepos Hsum) as Hagg.
  destruct (summarize_inv env Date_parse org repos metrics Hsum)
    as (r & stars & forks & _ & _ & _ & Hm).
  assert (Hpay : build_payload env metrics
                 = Throw (TypeError "Cannot convert object to primitive value")).
  { rewrite Hm, build_payload_summary. unfold spec_publicRepos. rewrite Hpub.
    unfold js_add. cbn [to_primitive to_string]. rewrite Hown. reflexivity. }
  unfold run_process, main. rewrite Hagg. cbn [agg_outcome agg_console].
  rewrite Hpay. reflexivity.
Qed.

(** The writer when the directory is there already. *)
Lemma write_payload_existing (fs : filesystem) (payload : value) :
  write_fault faults = None -> OUTPUT_DIR env ∈ dirs fs ->
  write_payload env faults fs payload
  = (Filesystem (dirs fs) (<[OUTPUT_FILE env := JSON_stringify payload]> (files fs)), Normal ()).
Proof.
  intros Hwr Hdir. unfold write_payload, existsSync, writeFileSync.
  rewrite Hwr, OUTPUT_FILE_in_dir, removelast_last.
  rewrite (bool_decide_eq_true_2 _ Hdir). cbn [orb negb].
  rewrite (bool_decide_eq_true_2 _ Hdir). reflexivity.
Qed.

Lemma OUTPUT_DIR_not_FILE : OUTPUT_DIR env <> OUTPUT_FILE env.
Proof.
  rewrite OUTPUT_FILE_in_dir. intros H. apply (f_equal length) in H.
  rewrite length_app in H. cbn in H. lia.
Qed.

(** X7.  Running [main] again on the disk it left, with the same answers
    and the same clock, changes nothing: the document is replaced by an
    identical one and no directory is made. *)
Theorem main_twice (org_delay fuel : nat) (fs : filesystem) (metrics payload : value) :
  agg_outcome (fetchOrgMetrics env fetch Date_parse org_delay fuel) = Some (Normal metrics) ->
  build_payload env metrics = Normal payload ->
  mkdir_fault faults = None -> write_fault faults = None ->
  files fs !! OUTPUT_DIR env = None ->
  run_disk (main env fetch Date_parse faults org_delay fuel
              (run_disk (main env fetch Date_parse faults org_delay fuel fs)))
  = run_disk (main env fetch Date_parse faults org_delay fuel fs).
Proof.
  intros Hagg Hpay Hmk Hwr Hfile.
  destruct (main_writes env fetch Date_parse faults org_delay fuel fs metrics payload
              Hagg Hpay Hmk Hwr Hfile) as (made & -> & Hdir & _).
  cbn [run_disk].
  rewrite (main_payload env fetch Date_parse faults org_delay fuel _ metrics payload Hagg Hpay).
  cbv zeta. rewrite write_payload_existing; [|exact Hwr|exact Hdir].
  cbn [run_disk dirs files]. rewrite insert_insert_eq. reflexivity.
Qed.

(** X8.  The selected repository always has a truthy [pushed_at]: in the
    payload of any run [latestCommit] is null together with
    [latestRepository] and the link, or it is a truthy value. *)
Theorem latest_commit_null_or_truthy (org_delay fuel : nat) (metrics payload : value) :
  agg_outcome (fetchOrgMetrics env fetch Date_parse org_delay fuel) = Some (Normal metrics) ->
  build_payload env metrics = Normal payload ->
  (get metrics "latestPushedRepository" = Normal VNull
   /\ get2 payload "metrics" "latestCommit" = Normal VNull
   /\ get2 payload "metrics" "latestRepository" = Normal VNull
   /\ get2 payload "sources" "latestRepository" = Normal VNull)
  \/ (exists commit : value,
        get2 payload "metrics" "latestCommit" = Normal commit /\ truthy commit = true).
Proof.
  intros Hagg Hpay.
  destruct (fetchOrgMetrics_outcome env fetch Date_parse org_delay fuel metrics Hagg)
    as [[e0 ->]|(org & repos & Hsum)].
  - rewrite build_payload_degraded in Hpay. injection Hpay as <-. left. repeat split.
  - destruct (summarize_inv env Date_parse org repos metrics Hsum)
      as (r & stars & forks & Hsel & _ & _ & ->).
    rewrite build_payload_summary in Hpay.
    destruct (js_add _ _) as [total|]; [|discriminate].
    cbn [mbind completion_bind] in Hpay. injection Hpay as <-.
    destruct (select_latest_pushed Date_parse repos r Hsel) as [->|(_ & Hr & Hp)].
    + left. repeat split.
    + right. exists (field r "pushed_at"). unfold latest_object. rewrite Hr.
      split; [reflexivity|exact Hp].
Qed.

End Results.

(** ** Where the requests go and what a refusal says *)

Section Traffic.

Variable env : environment.
Variable fetch : request -> completion response.
Variable Date_parse : string -> option Z.

Lemma append_empty (s : string) : s +:+ EmptyString = s.
Proof.
  induction s as [|c s IH]; [reflexivity|].
  change (String c (s +:+ EmptyString) = String c s). rewrite IH. reflexivity.
Qed.

Lemma page_requests_In (page : Z) (n : nat) (r : request) :
  In r (page_requests env page n) ->
  exists k : Z, page <= k /\ r = request_of env (repos_url env k).
Proof.
  unfold page_requests. intros H. apply in_map_iff in H. destruct H as (i & <- & _).
  exists (page + Z.of_nat i). split; [lia|reflexivity].
Qed.

Lemma listOrgRepos_In (fuel : nat) (r : request) :
  In r (fst (listOrgRepos env fetch fuel)) ->
  exists k : Z, 1 <= k /\ r = request_of env (repos_url env k).
Proof.
  unfold listOrgRepos. destruct (listLoop_log env fetch fuel [] 1 []) as (n & _ & -> & _).
  cbn [app]. apply page_requests_In.
Qed.

(** X9.  Every request of a run is the organization request or the request
    for some page 1, 2, ... of its repositories: it goes to
    [https://api.github.com/orgs/<organization>], the organization being the
    variable [GITHUB_ORG], or [abstract-data] when that is unset or empty,
    and it carries the one [Accept] header of the GitHub API. *)
Theorem requests_go_to_the_organization (org_delay fuel : nat) (r : request) :
  In r (agg_requests (fetchOrgMetrics env fetch Date_parse org_delay fuel))
  \/ In r (fst (listOrgRepos env fetch fuel)) ->
  (r = request_of env (org_url env)
   \/ exists k : Z, 1 <= k /\ r = request_of env (repos_url env k))
  /\ (exists rest : string,
        url r
        = "https://api.github.com/orgs/"
            +:+ match env_GITHUB_ORG env with
                | Some org => if String.eqb org EmptyString then "abstract-data" else org
                | None => "abstract-data"
                end
            +:+ rest)
  /\ map snd (List.filter (fun h => String.eqb (fst h) "Accept") (headers r))
     = ["application/vnd.github+json"].
Proof.
  intros Hr.
  assert (Hwhich : r = request_of env (org_url env)
                   \/ exists k : Z, 1 <= k /\ r = request_of env (repos_url env k)).
  { destruct Hr as [Hr|Hr]; [|right; exact (listOrgRepos_In fuel r Hr)].
    rewrite agg_requests_Promise_all in Hr. rewrite Promise_all_eq in Hr.
    destruct (fetchJson env fetch (org_url env)).
    - destruct (listOrgRepos env fetch fuel) as [log listing] eqn:Hl. cbn [fst] in Hr.
      destruct Hr as [<-|Hr]; [left; reflexivity|right].
      apply (listOrgRepos_In fuel). rewrite Hl. exact Hr.
    - destruct (listOrgRepos env fetch org_delay) as [log listing] eqn:Hl. cbn [fst] in Hr.
      destruct Hr as [<-|Hr]; [left; reflexivity|right].
      apply (listOrgRepos_In org_delay). rewrite Hl. exact Hr. }
  split; [exact Hwhich|].
  assert (Horg : GITHUB_ORG env
                 = match env_GITHUB_ORG env with
                   | Some org => if String.eqb org EmptyString then "abstract-data" else org
                   | None => "abstract-data"
                   end).
  { unfold GITHUB_ORG, env_truthy. destruct (env_GITHUB_ORG env) as [org|]; [|reflexivity].
    destruct (String.eqb org EmptyString); reflexivity. }
  rewrite <- Horg.
  assert (Haccept : forall u,
             map snd (List.filter (fun h => String.eqb (fst h) "Accept")
                        (headers (request_of env u)))
             = ["application/vnd.github+json"]).
  { intros u. unfold request_of, HEADERS. cbn [headers].
    destruct (env_truthy (GITHUB_TOKEN env)); reflexivity. }
  destruct Hwhich as [->|(k & _ & ->)].
  - split; [exists EmptyString|apply Haccept].
    cbn [url request_of]. unfold org_url. rewrite append_empty. reflexivity.
  - split; [|apply Haccept].
    eexists. cbn [url request_of]. unfold repos_url. reflexivity.
Qed.

(** X10.  A refused organization request is reported with its address,
    status and body: unless the listing fails first, the [error] of the
    result and the warning read
    [Failed request <url> -> <status>: <body>]. *)
Theorem refused_request_is_reported (org_delay fuel : nat) (resp : response) (body : string) :
  fetch (request_of env (org_url env)) = Normal resp ->
  ok resp = false ->
  text resp = Normal body ->
  (forall e : js_error, snd (listOrgRepos env fetch org_delay) <> Some (Throw e)) ->
  let msg := "Failed request " +:+ org_url env +:+ " -> " +:+ pretty (status resp)
               +:+ ": " +:+ body in
  agg_outcome (fetchOrgMetrics env fetch Date_parse org_delay fuel)
  = Some (Normal (degraded env (Error msg)))
  /\ get (degraded env (Error msg)) "error" = Normal (VStr msg)
  /\ agg_console (fetchOrgMetrics env fetch Date_parse org_delay fuel)
     = [console_warn ("[WARN] Unable to fetch GitHub metrics: " +:+ msg)].
Proof.
  intros Hresp Hok Htext Hlisting. cbv zeta.
  assert (Horg : fetchJson env fetch (org_url env)
                 = Throw (Error ("Failed request " +:+ org_url env +:+ " -> "
                                   +:+ pretty (status resp) +:+ ": " +:+ body))).
  { rewrite fetchJson_eq, Hresp. cbn [mbind completion_bind]. rewrite Hok, Htext.
    reflexivity. }
  assert (Hjoin : exists log,
             Promise_all env fetch org_delay fuel
             = (log, Some (Throw (Error ("Failed request " +:+ org_url env +:+ " -> "
                                           +:+ pretty (status resp) +:+ ": " +:+ body))))).
  { rewrite Promise_all_eq. rewrite Horg.
    destruct (listOrgRepos env fetch org_delay) as [log [[rows|e2]|]] eqn:Hl; eauto.
    exfalso. apply (Hlisting e2). reflexivity. }
  destruct Hjoin as [log Hjoin].
  rewrite (fetchOrgMetrics_rejected env fetch Date_parse org_delay fuel log _ Hjoin).
  repeat split.
Qed.

End Traffic.

(** ** Runs on which the further properties hold *)

Lemma listing_returns_whole_pages_witness :
  snd (listOrgRepos Mock.env Mock.three_pages 5) = Some (Normal (Mock.rows 237))
  /\ exists (full : list (list value)) (last : value),
       Mock.rows 237 = concat full ++ array_elements last
       /\ fst (listOrgRepos Mock.env Mock.three_pages 5)
          = page_requests Mock.env 1 (S (length full)).
Proof.
  assert (H : snd (listOrgRepos Mock.env Mock.three_pages 5) = Some (Normal (Mock.rows 237)))
    by (vm_compute; reflexivity).
  split; [exact H|].
  destruct (listing_returns_whole_pages Mock.env Mock.three_pages 5 (Mock.rows 237) H)
    as (full & last & _ & _ & _ & Hrows & Hlog).
  exists full, last. split; assumption.
Defined.

Lemma endless_listing_witness :
  listOrgRepos Mock.env (Mock.endless (Mock.ok_json Mock.org_body)) 7
  = (page_requests Mock.env 1 7, None)
  /\ agg_outcome (fetchOrgMetrics Mock.env (Mock.endless (Mock.ok_json Mock.org_body))
                   Mock.Date_parse 0 7) = None.
Proof.
  destruct (endless_listing Mock.env (Mock.endless (Mock.ok_json Mock.org_body))
              Mock.Date_parse 0 7) as (Hlist & Hok & _).
  - intros k Hk. exists (Mock.rows 100). split; [|cbn; lia].
    rewrite fetchJson_eq. unfold Mock.endless. cbn [url request_of].
    replace (String.eqb (repos_url Mock.env k) (org_url Mock.env)) with false; [reflexivity|].
    symmetry. apply String.eqb_neq. intros Heq.
    apply (f_equal (fun s => String.substring 41 1 s)) in Heq.
    vm_compute in Heq. discriminate Heq.
  - split; [exact Hlist|]. apply (Hok Mock.org_body). vm_compute. reflexivity.
Defined.

Lemma result_shape_witness :
  exists m : value,
    agg_outcome (fetchOrgMetrics Mock.env Mock.org_down Mock.Date_parse 0 5) = Some (Normal m)
    /\ get m "organization" = Normal (VStr "abstract-data").
Proof.
  eexists. split; [vm_compute; reflexivity|].
  exact (proj1 (result_shape Mock.env Mock.org_down Mock.Date_parse 0 5 _ eq_refl)).
Defined.

Lemma null_organization_degrades_witness :
  exists e : js_error,
    agg_outcome (fetchOrgMetrics Mock.env Mock.null_org Mock.Date_parse 0 5)
    = Some (Normal (degraded Mock.env e))
    /\ agg_console (fetchOrgMetrics Mock.env Mock.null_org Mock.Date_parse 0 5)
       = [console_warn ("[WARN] Unable to fetch GitHub metrics: " +:+ message e)].
Proof.
  apply (null_organization_degrades Mock.env Mock.null_org Mock.Date_parse 0 5 Mock.dated_rows);
    vm_compute; reflexivity.
Defined.

Lemma followers_and_members_witness :
  exists payload : value,
    build_payload Mock.env Mock.bare_metrics = Normal payload
    /\ get2 payload "metrics" "followers" = Normal (VNum 0)
    /\ get2 payload "metrics" "repos" = Normal (VNum 4).
Proof.
  eexists. split; [vm_compute; reflexivity|].
  destruct (followers_and_members Mock.env Mock.Date_parse (VObj []) Mock.dated_rows
              Mock.bare_metrics _ eq_refl eq_refl) as (Hf & _ & Hr).
  split; [exact Hf|exact (Hr eq_refl eq_refl)].
Defined.

Lemma unreadable_count_is_fatal_witness :
  run_process Mock.env Mock.odd_count Mock.Date_parse Mock.no_faults 0 5 Mock.empty_disk
  = Process [console_error "[ERROR] generate-stats failed:"
               (TypeError "Cannot convert object to primitive value")]
      Mock.empty_disk (Some 1).
Proof.
  apply (unreadable_count_is_fatal Mock.env Mock.odd_count Mock.Date_parse Mock.no_faults 0 5
           Mock.empty_disk Mock.odd_count_body Mock.dated_rows Mock.odd_count_metrics
           [("toString", VNum 1)]);
    vm_compute; reflexivity.
Defined.

Lemma main_twice_witness :
  run_disk (main Mock.env Mock.listed Mock.Date_parse Mock.no_faults 0 5
              (run_disk (main Mock.env Mock.listed Mock.Date_parse Mock.no_faults 0 5
                           Mock.empty_disk)))
  = run_disk (main Mock.env Mock.listed Mock.Date_parse Mock.no_faults 0 5 Mock.empty_disk).
Proof.
  apply (main_twice Mock.env Mock.listed Mock.Date_parse Mock.no_faults 0 5 Mock.empty_disk
           Mock.listed_metrics Mock.listed_payload); reflexivity.
Defined.

Lemma latest_commit_null_or_truthy_witness :
  exists commit : value,
    get2 Mock.listed_payload "metrics" "latestCommit" = Normal commit /\ truthy commit = true.
Proof.
  destruct (latest_commit_null_or_truthy Mock.env Mock.listed Mock.Date_parse 0 5
              Mock.listed_metrics Mock.listed_payload eq_refl eq_refl)
    as [(Hnull & _)|Hcommit].
  - discriminate Hnull.
  - exact Hcommit.
Defined.

Lemma requests_go_to_the_organization_witness :
  In (request_of Mock.env (repos_url Mock.env 1)) (fst (listOrgRepos Mock.env Mock.listed 5))
  /\ map snd (List.filter (fun h => String.eqb (fst h) "Accept")
                (headers (request_of Mock.env (repos_url Mock.env 1))))
     = ["application/vnd.github+json"].
Proof.
  assert (H : In (request_of Mock.env (repos_url Mock.env 1))
                (fst (listOrgRepos Mock.env Mock.listed 5))) by (left; reflexivity).
  split; [exact H|].
  exact (proj2 (proj2 (requests_go_to_the_organization Mock.env Mock.listed Mock.Date_parse
                         0 5 _ (or_intror H)))).
Defined.

Lemma refused_request_is_reported_witness :
  agg_console (fetchOrgMetrics Mock.env Mock.org_down Mock.Date_parse 0 5)
  = [console_warn ("[WARN] Unable to fetch GitHub metrics: "
                     +:+ ("Failed request " +:+ org_url Mock.env +:+ " -> " +:+ pretty 404
                            +:+ ": " +:+ "Not Found"))].
Proof.
  refine (proj2 (proj2 (refused_request_is_reported Mock.env Mock.org_down Mock.Date_parse 0 5
                          (Response false 404 (Normal "Not Found")
                             (Throw (JsError "SyntaxError" "Unexpected token")))
                          "Not Found" _ eq_refl eq_refl _))).
  - vm_compute. reflexivity.
  - intros e. vm_compute. discriminate.
Defined.

(** ** Runs on well-formed answers *)

Lemma latest_pushed_repository_witness :
  Forall (well_dated Mock.Date_parse) Mock.dated_rows
  /\ exists r metrics payload : value,
       select_latest Mock.Date_parse Mock.dated_rows = Normal r
       /\ summarize Mock.env Mock.Date_parse Mock.org_body Mock.dated_rows = Normal metrics
       /\ get metrics "latestPushedRepository"
          = Normal (if truthy r
                    then VObj [("name", field r "name"); ("pushedAt", field r "pushed_at");
                               ("htmlUrl", field r "html_url")]
                    else VNull)
       /\ build_payload Mock.env metrics = Normal payload
       /\ get2 payload "metrics" "latestRepository"
          = Normal (if truthy r then field r "name" else VNull)
       /\ agg_outcome (fetchOrgMetrics Mock.env Mock.listed Mock.Date_parse 0 5)
          = Some (Normal metrics)
       /\ get metrics "latestPushedRepository"
          = Normal (VObj [("name", VStr "beta"); ("pushedAt", VStr "2024-03-01T12:34:56Z");
                          ("htmlUrl", VStr "https://github.com/abstract-data/beta")]).
Proof.
  assert (H : Forall (well_dated Mock.Date_parse) Mock.dated_rows).
  { repeat constructor; vm_compute; eauto. }
  split; [exact H|].
  destruct (proj2 (proj2 (proj2 (latest_pushed_repository Mock.env Mock.listed Mock.Date_parse
                                   Mock.dated_rows)))
              Mock.org_body H ltac:(repeat constructor) ltac:(repeat constructor) I I)
    as (r & metrics & payload & Hsel & Hsum & Hlatest & Hpay & Hname & _ & _ & Hagg).
  exists r, metrics, payload.
  split; [exact Hsel|]. split; [exact Hsum|]. split; [exact Hlatest|]. split; [exact Hpay|].
  split; [exact Hname|].
  split; [exact (Hagg 0%nat 5%nat eq_refl eq_refl)|].
  assert (Hm : Normal metrics = Normal Mock.listed_metrics) by (rewrite <- Hsum; reflexivity).
  injection Hm as ->. reflexivity.
Defined.

Lemma totals_are_sums_witness :
  Forall (well_counted "stargazers_count") Mock.dated_rows
  /\ Forall (well_counted "forks_count") Mock.dated_rows
  /\ sum_counts "stargazers_count" Mock.dated_rows = 12
  /\ sum_counts "forks_count" Mock.dated_rows = 3
  /\ exists metrics payload : value,
       summarize Mock.env Mock.Date_parse Mock.org_body Mock.dated_rows = Normal metrics
       /\ get metrics "totalStars" = Normal (VNum (sum_counts "stargazers_count" Mock.dated_rows))
       /\ get metrics "totalForks" = Normal (VNum (sum_counts "forks_count" Mock.dated_rows))
       /\ build_payload Mock.env metrics = Normal payload
       /\ get2 payload "metrics" "totalStars"
          = Normal (VNum (sum_counts "stargazers_count" Mock.dated_rows))
       /\ agg_outcome (fetchOrgMetrics Mock.env Mock.listed Mock.Date_parse 0 5)
          = Some (Normal metrics).
Proof.
  assert (H1 : Forall (well_counted "stargazers_count") Mock.dated_rows)
    by (repeat constructor).
  assert (H2 : Forall (well_counted "forks_count") Mock.dated_rows)
    by (repeat constructor).
  split; [exact H1|]. split; [exact H2|]. split; [reflexivity|]. split; [reflexivity|].
  destruct (proj2 (proj2 (proj2 (totals_are_sums Mock.env Mock.listed Mock.Date_parse
                                   Mock.dated_rows H1 H2)))
              Mock.org_body ltac:(repeat constructor) I I)
    as (metrics & payload & Hsum & Hstars & Hforks & Hpay & Hpstars & _ & Hagg).
  exists metrics, payload.
  split; [exact Hsum|]. split; [exact Hstars|]. split; [exact Hforks|]. split; [exact Hpay|].
  split; [exact Hpstars|]. exact (Hagg 0%nat 5%nat eq_refl eq_refl).
Defined.

Lemma authorization_header_witness :
  In (request_of Mock.env (repos_url Mock.env 1))
     (agg_requests (fetchOrgMetrics Mock.env Mock.listed Mock.Date_parse 0 5))
  /\ authorization (request_of Mock.env (repos_url Mock.env 1)) = ["Bearer s3cret"]
  /\ exists r : request,
       fst (fetchJson_call Mock.env Mock.listed (org_url Mock.env)) = [r]
       /\ url r = org_url Mock.env
       /\ authorization r = ["Bearer s3cret"].
Proof.
  assert (H : In (request_of Mock.env (repos_url Mock.env 1))
                (agg_requests (fetchOrgMetrics Mock.env Mock.listed Mock.Date_parse 0 5)))
    by (right; left; reflexivity).
  split; [exact H|].
  split; [exact (proj2 (authorization_header Mock.env Mock.listed Mock.Date_parse 0 5)
                   _ (or_introl H))|].
  destruct (proj1 (authorization_header Mock.env Mock.listed Mock.Date_parse 0 5)
              (org_url Mock.env)) as (r & Hsent & Hurl & _ & Hauth).
  exists r. split; [exact Hsent|]. split; [exact Hurl|exact Hauth].
Defined.

Lemma payload_written_beside_script_witness :
  OUTPUT_FILE Mock.env = ["repo"; "profile"; "stats.json"]
  /\ files (run_disk (main Mock.env Mock.listed Mock.Date_parse Mock.no_faults 0 5
                        Mock.empty_disk)) !! OUTPUT_FILE Mock.env
     = Some (JSON_stringify Mock.listed_payload)
  /\ OUTPUT_DIR Mock.env
     ∈ dirs (run_disk (main Mock.env Mock.listed Mock.Date_parse Mock.no_faults 0 5
                         Mock.empty_disk))
  /\ files (disk (run_process Mock.env Mock.listed Mock.Date_parse Mock.write_refused 0 5
                    Mock.empty_disk)) = files Mock.empty_disk
  /\ exit_code (run_process Mock.env Mock.listed Mock.Date_parse Mock.write_refused 0 5
                  Mock.empty_disk) = Some 1.
Proof.
  destruct (payload_written_beside_script Mock.env Mock.listed Mock.Date_parse Mock.no_faults
              0 5 Mock.empty_disk Mock.listed_metrics eq_refl)
    as (_ & _ & Hwritten & _ & _).
  destruct (Hwritten Mock.listed_payload eq_refl eq_refl eq_refl eq_refl)
    as (_ & Hfile & Hdir & _).
  destruct (payload_written_beside_script Mock.env Mock.listed Mock.Date_parse
              Mock.write_refused 0 5 Mock.empty_disk Mock.listed_metrics eq_refl)
    as (_ & _ & _ & Hrefused & _).
  destruct (Hrefused Mock.listed_payload _ eq_refl eq_refl eq_refl) as (_ & Hsame & Hexit).
  split; [reflexivity|]. split; [exact Hfile|]. split; [exact Hdir|].
  split; [exact Hsame|exact Hexit].
Defined.

